(** * dendritic-memory-editor: the D1 -> IATH export script and the IATH batch codec

    The development has two halves.

    - [Py] and [Script] embed [converter_scripts/convert_db_to_iath.py]:
      the JSON values the script receives, the record normalizer
      [convert_d1_to_iath_v1_compatible] and the driver [main], written in a
      small state-and-exception monad whose state is the clock, the trace of
      externally visible actions and the file system.
    - [Wire] and [Codec] hold the IATH batch codec.  The module
      [iath_encoder] is imported by the script but its source is not part of
      the tree at hand, so the codec is modelled from the format
      specification. *)

From Stdlib Require Import ZArith Lia Bool.
From Stdlib Require Import Strings.String Strings.Ascii Strings.Byte.
From Stdlib Require Import Numbers.DecimalString.
From Stdlib Require Import Floats.SpecFloat.
From stdpp Require Import base option list gmap strings.

Set Warnings "-register-all".
Local Open Scope Z_scope.

(* ===================================================================== *)
(** * Python values                                                       *)
(* ===================================================================== *)

Module Py.

(** What [response.json()] can return, and what the normalizer builds:
    [None], booleans, integers, floats (IEEE-754 binary64, kept as their
    64-bit pattern), strings (UTF-8 text), lists and dicts with string
    keys. *)
Inductive pyval : Type :=
| PNone
| PBool (b : bool)
| PInt (z : Z)
| PFloat (bits : Z)
| PStr (s : string)
| PList (l : list pyval)
| PDict (m : gmap string pyval).

(** The exceptions that can escape the script. *)
Inductive pyexn : Type :=
| AttributeError
| TypeError
| OSError
| EncoderError (detail : string).

Inductive outcome (A : Type) : Type :=
| Return (a : A)
| Raise (e : pyexn).
Arguments Return {A} a.
Arguments Raise {A} e.

(** Bit patterns of the float literals of the script. *)
Definition F64_ZERO : Z := 0.
Definition F64_NEG_ZERO : Z := 0x8000000000000000.
Definition F64_HALF : Z := 0x3FE0000000000000.
Definition F64_ONE : Z := 0x3FF0000000000000.

Definition NEWLINE : string := String (ascii_of_nat 10) EmptyString.

(** [d.get(key, default)] on a dict. *)
Definition dict_get (d : gmap string pyval) (key : string) (dflt : pyval) : pyval :=
  default dflt (d !! key).

(** A byte of UTF-8 text that continues a character (10xxxxxx). *)
Definition is_continuation (b : byte) : bool :=
  let n := Byte.to_N b in ((128 <=? n) && (n <=? 191))%N.

(** The characters of a string: every byte that is not a continuation byte
    opens a new character, continuation bytes join the character before
    them. *)
Fixpoint group_chars (bs : list byte) : list (list byte) :=
  match bs with
  | [] => []
  | b :: rest =>
      match rest with
      | [] => [[b]]
      | b' :: _ =>
          if is_continuation b'
          then match group_chars rest with
               | c :: cs => (b :: c) :: cs
               | [] => [[b]]
               end
          else [b] :: group_chars rest
      end
  end.

Definition str_chars (s : string) : list string :=
  string_of_list_byte <$> group_chars (list_byte_of_string s).

(** [len(s)] counts characters, not bytes. *)
Definition str_len (s : string) : nat :=
  length (filter (λ b, is_continuation b = false) (list_byte_of_string s)).

Definition string_of_Z (z : Z) : string := NilZero.string_of_int (Z.to_int z).


(** The f-string conversion [f"{v}"], that is [format(v, '')].  A string is
    inserted as it is; [None], booleans and integers print as Python prints
    them.  The text of floats, lists and dicts ([repr]) is the interpreter's
    and is taken as a parameter. *)
Definition format_value (repr_other : pyval → string) (v : pyval) : string :=
  match v with
  | PStr s => s
  | PNone => "None"
  | PBool true => "True"
  | PBool false => "False"
  | PInt z => string_of_Z z
  | _ => repr_other v
  end.

(** [len(v)]: defined on lists, dicts and strings. *)
Definition py_len (v : pyval) : outcome nat :=
  match v with
  | PList l => Return (length l)
  | PDict m => Return (size m)
  | PStr s => Return (str_len s)
  | _ => Raise TypeError
  end.

(** Truth value, as used by [if not v]. *)
Definition py_truthy (v : pyval) : bool :=
  match v with
  | PNone => false
  | PBool b => b
  | PInt z => negb (z =? 0)
  | PFloat bits => negb ((bits =? F64_ZERO) || (bits =? F64_NEG_ZERO))
  | PStr s => negb (String.eqb s EmptyString)
  | PList l => negb (Nat.eqb (length l) 0)
  | PDict m => negb (Nat.eqb (size m) 0)
  end.

(** The items [for x in v] visits: the elements of a list, the keys of a
    dict, the characters of a string. *)
Definition py_iter (v : pyval) : outcome (list pyval) :=
  match v with
  | PList l => Return l
  | PDict m => Return (PStr <$> (map_to_list m).*1)
  | PStr s => Return (PStr <$> str_chars s)
  | _ => Raise TypeError
  end.

(** [v[k1][k2]...] along a path of keys. *)
Fixpoint path_get (v : pyval) (path : list string) : option pyval :=
  match path with
  | [] => Some v
  | k :: rest =>
      match v with
      | PDict d => match d !! k with
                   | Some v' => path_get v' rest
                   | None => None
                   end
      | _ => None
      end
  end.

(** [v.get(key, default)]: only dicts have the method. *)
Definition py_get (v : pyval) (key : string) (dflt : pyval) : outcome pyval :=
  match v with
  | PDict d => Return (dict_get d key dflt)
  | _ => Raise AttributeError
  end.

End Py.
Export Py.

(* ===================================================================== *)
(** * The script                                                          *)
(* ===================================================================== *)

Module Script.

(** Lines the script prints.  Their wording is irrelevant here; each keeps
    the values interpolated into it, a time stamp being the index of the
    clock reading it shows. *)
Inductive log_msg : Type :=
| MsgExporting (t : nat) (url : string)
| MsgFetchFailed (t : nat)
| MsgBadJson (t : nat)
| MsgResponseBody
| MsgCounts (t : nat) (n_tiles n_users : nat)
| MsgNoTiles (t : nat)
| MsgExported (t : nat) (filename : string)
| MsgFileSize (n : nat).

(** Externally visible actions, in the order they happen. *)
Inductive event : Type :=
| EvPrint (m : log_msg)
| EvHttpGet (url : string)
| EvEncoderNew
| EvEncodeBatch (tiles : list pyval) (domain_code : Z)
| EvOpenWb (filename : string)
| EvWrite (filename : string) (data : list byte)
| EvGetSize (filename : string).

Record World : Type := mkWorld {
  ticks : nat;                         (* calls of datetime.now() so far *)
  trace : list event;
  files : gmap string (list byte)
}.

Definition init_world (fs : gmap string (list byte)) : World :=
  mkWorld 0 [] fs.

(** What [requests.get(...)], [raise_for_status()] and [response.json()]
    come to. *)
Inductive fetch_result : Type :=
| FetchRequestError
| FetchJsonError
| FetchOk (exported_data : pyval).

(** The interpreter and the collaborators of the script. *)
Record Env : Type := mkEnv {
  clock_iso : nat → string;            (* isoformat() of the n-th clock reading *)
  repr_other : pyval → string;         (* text of floats, lists, dicts in an f-string *)
  fetch : fetch_result;                (* the remote export source *)
  encode_batch : list pyval → Z → outcome (list byte);   (* IathEncoder.encode_batch *)
  disk_writable : bool                 (* whether open(..., "wb") succeeds *)
}.

(** Computations: they read and change the world, and return or raise. *)
Definition M (A : Type) : Type := World → outcome A * World.

#[global] Instance M_ret : MRet M := λ A a w, (Return a, w).
#[global] Instance M_bind : MBind M := λ A B f m w,
  match m w with
  | (Return a, w') => f a w'
  | (Raise e, w') => (Raise e, w')
  end.

Definition raise {A} (e : pyexn) : M A := λ w, (Raise e, w).

Definition lift {A} (o : outcome A) : M A := λ w, (o, w).

(** [datetime.now()]: the index of this reading; the clock moves on. *)
Definition now : M nat :=
  λ w, (Return (ticks w), mkWorld (S (ticks w)) (trace w) (files w)).

Definition emit (e : event) : M unit :=
  λ w, (Return tt, mkWorld (ticks w) (trace w ++ [e]) (files w)).

Definition print (m : log_msg) : M unit := emit (EvPrint m).

(** The file system: a file is created or replaced, and looked up. *)
Definition store (name : string) (data : list byte) : M unit :=
  λ w, (Return tt, mkWorld (ticks w) (trace w) (<[name := data]> (files w))).

Definition stat (name : string) : M nat :=
  λ w, match files w !! name with
       | Some data => (Return (length data), w)
       | None => (Raise OSError, w)
       end.

(** [with open(name, "wb") as f: f.write(data)] *)
Definition write_file (env : Env) (name : string) (data : list byte) : M unit :=
  if disk_writable env then
    emit (EvOpenWb name);;
    emit (EvWrite name data);;
    store name data
  else raise OSError.

(** [os.path.getsize(name)] *)
Definition getsize (name : string) : M nat :=
  emit (EvGetSize name);;
  stat name.

(** A list comprehension [[f(x) for x in l]]. *)
Fixpoint for_each {A B} (f : A → M B) (l : list A) : M (list B) :=
  match l with
  | [] => mret []
  | x :: rest => y ← f x; ys ← for_each f rest; mret (y :: ys)
  end.

Definition PREFIX : string := "[Auto-imported]" +:+ NEWLINE.

Definition convert_d1_to_iath_v1_compatible (env : Env) (d1_tile : pyval) : M pyval :=
  knowledge_id ← lift (py_get d1_tile "id" PNone);
  content_text ← lift (py_get d1_tile "content" (PStr EmptyString));
  author_mark_str ← lift (py_get d1_tile "author_mark" (PStr "community"));
  topic ← lift (py_get d1_tile "topic" (PStr "Untitled Topic"));
  t ← now;
  created_at ← lift (py_get d1_tile "created_at" (PStr (clock_iso env t)));
  x ← lift (py_get d1_tile "coordinates_x" (PFloat F64_ZERO));
  y ← lift (py_get d1_tile "coordinates_y" (PFloat F64_ZERO));
  z ← lift (py_get d1_tile "coordinates_z" (PFloat F64_ZERO));
  status ← lift (py_get d1_tile "verification_status" (PStr "pending_review"));
  mret (PDict {[
    "metadata" := PDict {[
      "knowledge_id" := knowledge_id;
      "topic" := topic;
      "created_at" := created_at ]};
    "coordinates" := PDict {[
      "medical_space" := PList [x; y; z];
      "meta_space" := PList [PFloat F64_ZERO; PFloat F64_ZERO; PFloat F64_ZERO] ]};
    "content" := PDict {[
      "thinking_process" := PStr (PREFIX +:+ format_value (repr_other env) content_text);
      "final_response" := content_text ]};
    "verification" := PDict {[
      "status" := status;
      "initial_certainty" := PFloat F64_HALF;
      "reviewers" := PList [] ]}
  ]}).

Definition BACKEND_API_URL : string :=
  "https://dendritic-memory-backend.nullai-db-app-face.workers.dev".
Definition EXPORT_ENDPOINT : string := "/api/db/export".
Definition OUTPUT_FILENAME : string := "exported_db.iath".

Definition main (env : Env) : M unit :=
  t ← now;
  print (MsgExporting t (BACKEND_API_URL +:+ EXPORT_ENDPOINT));;
  emit (EvHttpGet (BACKEND_API_URL +:+ EXPORT_ENDPOINT));;
  match fetch env with
  | FetchRequestError =>
      t ← now; print (MsgFetchFailed t)
  | FetchJsonError =>
      t ← now; print (MsgBadJson t);; print MsgResponseBody
  | FetchOk exported_data =>
      knowledge_tiles_d1 ← lift (py_get exported_data "knowledge_tiles" (PList []));
      users_d1 ← lift (py_get exported_data "users" (PList []));
      t ← now;
      n_tiles ← lift (py_len knowledge_tiles_d1);
      n_users ← lift (py_len users_d1);
      print (MsgCounts t n_tiles n_users);;
      if negb (py_truthy knowledge_tiles_d1) then
        t ← now; print (MsgNoTiles t)
      else
        items ← lift (py_iter knowledge_tiles_d1);
        iath_compatible_tiles ← for_each (convert_d1_to_iath_v1_compatible env) items;
        emit EvEncoderNew;;
        emit (EvEncodeBatch iath_compatible_tiles 1);;
        iath_binary_data ← lift (encode_batch env iath_compatible_tiles 1);
        write_file env OUTPUT_FILENAME iath_binary_data;;
        t ← now;
        print (MsgExported t OUTPUT_FILENAME);;
        size ← getsize OUTPUT_FILENAME;
        print (MsgFileSize size)
  end.

(** Running the script from a fresh process. *)
Definition run_main (env : Env) (fs : gmap string (list byte)) : outcome unit * World :=
  main env (init_world fs).

End Script.
Export Script.

(* ===================================================================== *)
(** * Bytes on the wire                                                   *)
(* ===================================================================== *)

Module Wire.

(** The unsigned value of a byte. *)
Definition Z_of_byte (b : byte) : Z := Z.of_N (Byte.to_N b).

(** The low eight bits of [z]. *)
Definition byte_of_Z (z : Z) : byte :=
  default Byte.x00 (Byte.of_N (Z.to_N (z mod 256))).

(** Modelled from the spec: the module [iath_encoder] is missing; all
    integers are little-endian: [n] bytes of [z], least significant first
    (bits beyond the [n] bytes are dropped). *)
Fixpoint le_bytes (n : nat) (z : Z) : list byte :=
  match n with
  | O => []
  | S n' => byte_of_Z z :: le_bytes n' (z / 256)
  end.

(** Modelled from the spec: the module [iath_encoder] is missing; the
    unsigned integer a little-endian byte sequence stands for. *)
Fixpoint le_value (bs : list byte) : Z :=
  match bs with
  | [] => 0
  | b :: rest => Z_of_byte b + 256 * le_value rest
  end.

Definition in_range (lo hi : Z) (b : byte) : bool :=
  (lo <=? Z_of_byte b) && (Z_of_byte b <=? hi).

Definition is_tail (b : byte) : bool := in_range 0x80 0xBF b.

(** Modelled from the spec: the module [iath_encoder] is missing; valid
    UTF-8, that is the well-formed byte sequences of the Unicode standard
    (table 3-7): shortest form only, no surrogates, nothing above
    U+10FFFF. *)
Fixpoint utf8_valid (bs : list byte) : bool :=
  match bs with
  | [] => true
  | b0 :: r0 =>
      if in_range 0x00 0x7F b0 then utf8_valid r0
      else
        match r0 with
        | [] => false
        | b1 :: r1 =>
            if in_range 0xC2 0xDF b0 then is_tail b1 && utf8_valid r1
            else
              match r1 with
              | [] => false
              | b2 :: r2 =>
                  if in_range 0xE0 0xE0 b0 then
                    in_range 0xA0 0xBF b1 && is_tail b2 && utf8_valid r2
                  else if in_range 0xE1 0xEC b0 || in_range 0xEE 0xEF b0 then
                    is_tail b1 && is_tail b2 && utf8_valid r2
                  else if in_range 0xED 0xED b0 then
                    in_range 0x80 0x9F b1 && is_tail b2 && utf8_valid r2
                  else
                    match r2 with
                    | [] => false
                    | b3 :: r3 =>
                        if in_range 0xF0 0xF0 b0 then
                          in_range 0x90 0xBF b1 && is_tail b2 && is_tail b3 && utf8_valid r3
                        else if in_range 0xF1 0xF3 b0 then
                          is_tail b1 && is_tail b2 && is_tail b3 && utf8_valid r3
                        else if in_range 0xF4 0xF4 b0 then
                          in_range 0x80 0x8F b1 && is_tail b2 && is_tail b3 && utf8_valid r3
                        else false
                    end
              end
        end
  end.

(** ** IEEE-754 binary64 values from their bit patterns *)

Definition f64_sign (bits : Z) : bool := Z.testbit bits 63.
Definition f64_exponent (bits : Z) : Z := (bits / 2 ^ 52) mod 2 ^ 11.
Definition f64_fraction (bits : Z) : Z := bits mod 2 ^ 52.

(** Modelled from the spec: the module [iath_encoder] is missing; the
    IEEE-754 double a 64-bit pattern stands for: sign, 11-bit biased
    exponent, 52-bit fraction. *)
Definition f64_to_SF (bits : Z) : spec_float :=
  let s := f64_sign bits in
  let e := f64_exponent bits in
  let m := f64_fraction bits in
  if e =? 0 then
    if m =? 0 then S754_zero s else S754_finite s (Z.to_pos m) (-1074)
  else if e =? 2047 then
    if m =? 0 then S754_infinity s else S754_nan
  else S754_finite s (Z.to_pos (m + 2 ^ 52)) (e - 1075).

(** Modelled from the spec: the module [iath_encoder] is missing; the order
    of doubles, [a <= b], false when either is a NaN. *)
Definition f64_leb (a b : Z) : bool := SFleb (f64_to_SF a) (f64_to_SF b).

End Wire.
Export Wire.

(* ===================================================================== *)
(** * The IATH batch codec                                                *)
(* ===================================================================== *)

Module Codec.

Inductive result (E A : Type) : Type :=
| Ok (a : A)
| Err (e : E).
Arguments Ok {E A} a.
Arguments Err {E A} e.

(** Modelled from the spec: the module [iath_encoder] is missing; a fixed
    3-component float vector, each component a binary64 bit pattern. *)
Record Float3 : Type := mkFloat3 { fx : Z; fy : Z; fz : Z }.

(** Modelled from the spec: the module [iath_encoder] is missing; the Tile
    Record of the data model, text fields as UTF-8 strings, floats as
    binary64 bit patterns. *)
Record Tile : Type := mkTile {
  knowledge_id : string;
  topic : string;
  created_at : string;
  medical_space : Float3;
  meta_space : Float3;
  thinking_process : string;
  final_response : string;
  verification_status : string;
  initial_certainty : Z;
  reviewers : list string
}.

(** Modelled from the spec: the module [iath_encoder] is missing; the Tile
    Batch, with the one-byte domain code and format version of the header. *)
Record TileBatch : Type := mkBatch {
  domain_code : byte;
  format_version : byte;
  tiles : list Tile
}.

(** Modelled from the spec: the module [iath_encoder] is missing; the spec
    fixes neither the 4-byte magic constant nor the number of the current
    format version, so both are parameters of the codec. *)
Record Format : Type := mkFormat {
  magic : byte * byte * byte * byte;
  current_version : byte
}.

(** Modelled from the spec: the module [iath_encoder] is missing; the four
    bytes that open every stream. *)
Definition magic_bytes (fmt : Format) : list byte :=
  let '(a, b, c, d) := magic fmt in [a; b; c; d].

(** Modelled from the spec: the module [iath_encoder] is missing; the
    reasons a tile is refused. *)
Inductive validation_reason : Type :=
| CertaintyOutOfRange
| EmptyKnowledgeId
| EmptyTopic.

(** Modelled from the spec: the module [iath_encoder] is missing; the error
    taxonomy of the codec. *)
Inductive encode_error : Type :=
| ValidationError (index : nat) (reason : validation_reason).

(** Modelled from the spec: the module [iath_encoder] is missing; the
    decode-time errors of the taxonomy. *)
Inductive decode_error : Type :=
| BadMagic
| UnsupportedVersion
| TruncatedRecord
| TrailingData
| MalformedText.

(** ** Encoding *)

(** Modelled from the spec: the module [iath_encoder] is missing; an
    unsigned 32-bit integer, little-endian. *)
Definition encode_u32 (n : Z) : list byte := le_bytes 4 n.

(** Modelled from the spec: the module [iath_encoder] is missing; a 64-bit
    IEEE-754 value, little-endian. *)
Definition encode_f64 (bits : Z) : list byte := le_bytes 8 bits.

(** Modelled from the spec: the module [iath_encoder] is missing; Text is
    the number of encoded bytes as a u32, then the UTF-8 bytes. *)
Definition encode_text (s : string) : list byte :=
  let raw := list_byte_of_string s in
  encode_u32 (Z.of_nat (length raw)) ++ raw.

(** Modelled from the spec: the module [iath_encoder] is missing; Float3 is
    three consecutive doubles. *)
Definition encode_float3 (v : Float3) : list byte :=
  encode_f64 (fx v) ++ encode_f64 (fy v) ++ encode_f64 (fz v).

(** Modelled from the spec: the module [iath_encoder] is missing; an
    identifier list is a u32 count, then that many Text entries. *)
Definition encode_id_list (ids : list string) : list byte :=
  encode_u32 (Z.of_nat (length ids)) ++ concat (encode_text <$> ids).

(** Modelled from the spec: the module [iath_encoder] is missing; one tile
    block, the fields in the fixed order of the Tile Codec. *)
Definition encode_tile (t : Tile) : list byte :=
  encode_text (knowledge_id t) ++
  encode_text (topic t) ++
  encode_text (created_at t) ++
  encode_float3 (medical_space t) ++
  encode_float3 (meta_space t) ++
  encode_text (thinking_process t) ++
  encode_text (final_response t) ++
  encode_text (verification_status t) ++
  encode_f64 (initial_certainty t) ++
  encode_id_list (reviewers t).

(** Modelled from the spec: the module [iath_encoder] is missing;
    [initial_certainty] lies in [0.0, 1.0]. *)
Definition certainty_in_range (bits : Z) : bool :=
  f64_leb F64_ZERO bits && f64_leb bits F64_ONE.

(** A text without characters. *)
Definition is_empty (s : string) : bool := String.eqb s EmptyString.

(** Modelled from the spec: the module [iath_encoder] is missing; the
    validation of one tile: certainty in range, [knowledge_id] and [topic]
    not empty. *)
Definition validate_tile (t : Tile) : option validation_reason :=
  if negb (certainty_in_range (initial_certainty t)) then Some CertaintyOutOfRange
  else if is_empty (knowledge_id t) then Some EmptyKnowledgeId
  else if is_empty (topic t) then Some EmptyTopic
  else None.

(** Modelled from the spec: the module [iath_encoder] is missing; the first
    invalid tile, counted from index [i]. *)
Fixpoint validate_from (i : nat) (ts : list Tile) : option encode_error :=
  match ts with
  | [] => None
  | t :: rest =>
      match validate_tile t with
      | Some reason => Some (ValidationError i reason)
      | None => validate_from (S i) rest
      end
  end.

(** Modelled from the spec: the module [iath_encoder] is missing; the
    header: magic, version, domain code, tile count. *)
Definition encode_header (fmt : Format) (domain : byte) (count : nat) : list byte :=
  magic_bytes fmt ++ [current_version fmt] ++ [domain] ++ encode_u32 (Z.of_nat count).

(** Modelled from the spec: the module [iath_encoder] is missing; the
    public entry point [encode(tiles, domain_code) -> bytes].  Every tile
    is validated before the first byte is produced. *)
Definition encode (fmt : Format) (ts : list Tile) (domain : byte)
  : result encode_error (list byte) :=
  match validate_from 0 ts with
  | Some e => Err e
  | None => Ok (encode_header fmt domain (length ts) ++ concat (encode_tile <$> ts))
  end.

(** Modelled from the spec: the module [iath_encoder] is missing; the bytes
    a caller of [encode] receives: none when it fails. *)
Definition emitted (r : result encode_error (list byte)) : list byte :=
  match r with
  | Ok bs => bs
  | Err _ => []
  end.

(** ** Decoding *)

(** A reader consumes a prefix of the input or fails. *)
Definition Parser (A : Type) : Type := list byte → result decode_error (A * list byte).

#[global] Instance Parser_ret : MRet Parser := λ A a bs, Ok (a, bs).
#[global] Instance Parser_bind : MBind Parser := λ A B f p bs,
  match p bs with
  | Ok (a, rest) => f a rest
  | Err e => Err e
  end.

Definition fail {A} (e : decode_error) : Parser A := λ _, Err e.

(** Modelled from the spec: the module [iath_encoder] is missing; exactly
    the next [n] bytes, or the error [e] when fewer remain. *)
Definition take_bytes (n : Z) (e : decode_error) : Parser (list byte) :=
  λ bs, if n <=? Z.of_nat (length bs)
        then Ok (take (Z.to_nat n) bs, drop (Z.to_nat n) bs)
        else Err e.

(** Modelled from the spec: the module [iath_encoder] is missing; one byte
    of the header. *)
Definition read_byte : Parser byte :=
  λ bs, match bs with
        | b :: rest => Ok (b, rest)
        | [] => Err TruncatedRecord
        end.

(** Modelled from the spec: the module [iath_encoder] is missing. *)
Definition read_u32 : Parser Z :=
  raw ← take_bytes 4 TruncatedRecord; mret (le_value raw).

(** Modelled from the spec: the module [iath_encoder] is missing. *)
Definition read_f64 : Parser Z :=
  raw ← take_bytes 8 TruncatedRecord; mret (le_value raw).

(** Modelled from the spec: the module [iath_encoder] is missing; reads the
    length, then that many bytes; [MalformedText] when the declared length
    exceeds what remains or the bytes are not valid UTF-8. *)
Definition read_text : Parser string :=
  len ← read_u32;
  raw ← take_bytes len MalformedText;
  if utf8_valid raw then mret (string_of_list_byte raw) else fail MalformedText.

(** Modelled from the spec: the module [iath_encoder] is missing. *)
Definition read_float3 : Parser Float3 :=
  x ← read_f64; y ← read_f64; z ← read_f64; mret (mkFloat3 x y z).

(** Modelled from the spec: the module [iath_encoder] is missing; [n]
    consecutive items, in order. *)
Fixpoint read_many {A} (p : Parser A) (n : nat) : Parser (list A) :=
  match n with
  | O => mret []
  | S n' => x ← p; xs ← read_many p n'; mret (x :: xs)
  end.

(** Modelled from the spec: the module [iath_encoder] is missing. *)
Definition read_id_list : Parser (list string) :=
  count ← read_u32; read_many read_text (Z.to_nat count).

(** Modelled from the spec: the module [iath_encoder] is missing; decoding
    a tile is mechanical: the fields in order, no semantic check. *)
Definition read_tile : Parser Tile :=
  kid ← read_text;
  top ← read_text;
  created ← read_text;
  med ← read_float3;
  meta ← read_float3;
  thinking ← read_text;
  final ← read_text;
  status ← read_text;
  certainty ← read_f64;
  revs ← read_id_list;
  mret (mkTile kid top created med meta thinking final status certainty revs).

(** Equality of byte sequences. *)
Definition bytes_eqb (a b : list byte) : bool :=
  bool_decide (Z_of_byte <$> a = Z_of_byte <$> b).

(** Modelled from the spec: the module [iath_encoder] is missing; the
    header is read and checked before any tile is parsed. *)
Definition read_header (fmt : Format) : Parser (byte * byte * Z) :=
  m ← take_bytes 4 TruncatedRecord;
  if negb (bytes_eqb m (magic_bytes fmt)) then fail BadMagic else
  version ← read_byte;
  if Z_of_byte (current_version fmt) <? Z_of_byte version then fail UnsupportedVersion else
  domain ← read_byte;
  count ← read_u32;
  mret (domain, version, count).

(** Modelled from the spec: the module [iath_encoder] is missing; the
    public entry point [decode(bytes) -> (domain_code, format_version,
    tiles)]; the whole stream must be consumed. *)
Definition decode (fmt : Format) (bs : list byte) : result decode_error TileBatch :=
  match (hdr ← read_header fmt;
         ts ← read_many read_tile (Z.to_nat hdr.2);
         mret (mkBatch hdr.1.1 hdr.1.2 ts)) bs with
  | Ok (batch, []) => Ok batch
  | Ok (_, _ :: _) => Err TrailingData
  | Err e => Err e
  end.

(** ** Valid batches *)

(** Modelled from the spec: the module [iath_encoder] is missing; a length
    or count the u32 prefix can hold. *)
Definition fits_u32 (n : nat) : bool := Z.of_nat n <? 2 ^ 32.

(** A 64-bit pattern. *)
Definition is_f64 (bits : Z) : bool := (0 <=? bits) && (bits <? 2 ^ 64).

(** Modelled from the spec: the module [iath_encoder] is missing; a text
    value is well-formed UTF-8 whose length fits the u32 prefix. *)
Definition text_ok (s : string) : bool :=
  utf8_valid (list_byte_of_string s) && fits_u32 (length (list_byte_of_string s)).

Definition float3_ok (v : Float3) : bool :=
  is_f64 (fx v) && is_f64 (fy v) && is_f64 (fz v).

(** Modelled from the spec: the module [iath_encoder] is missing; a tile
    that is a value of the data model: every field is what its type says
    and fits its wire form. *)
Definition tile_wf (t : Tile) : bool :=
  text_ok (knowledge_id t) && text_ok (topic t) && text_ok (created_at t) &&
  float3_ok (medical_space t) && float3_ok (meta_space t) &&
  text_ok (thinking_process t) && text_ok (final_response t) &&
  text_ok (verification_status t) && is_f64 (initial_certainty t) &&
  fits_u32 (length (reviewers t)) && forallb text_ok (reviewers t).

(** Modelled from the spec: the module [iath_encoder] is missing; a valid
    tile also meets the invariants the encoder checks. *)
Definition valid_tile (t : Tile) : bool :=
  tile_wf t && bool_decide (validate_tile t = None).

(** Modelled from the spec: the module [iath_encoder] is missing; a valid
    batch has valid tiles, a count that fits the header, and the format
    version this codec writes. *)
Definition valid_batch (fmt : Format) (b : TileBatch) : bool :=
  forallb valid_tile (tiles b) && fits_u32 (length (tiles b)) &&
  (Z_of_byte (format_version b) =? Z_of_byte (current_version fmt)).

(** Modelled from the spec: the module [iath_encoder] is missing; [encode]
    applied to a batch. *)
Definition encode_batch_of (fmt : Format) (b : TileBatch) : result encode_error (list byte) :=
  encode fmt (tiles b) (domain_code b).

End Codec.
Export Codec.

(* ===================================================================== *)
(** * Properties under study, and sample inputs                           *)
(* ===================================================================== *)

Module Props.

(** A value that is a string with at least one character. *)
Definition nonempty_text (v : pyval) : bool :=
  match v with
  | PStr s => negb (String.eqb s EmptyString)
  | _ => false
  end.

(** [s] ends [t]. *)
Definition str_suffix (s t : string) : Prop := ∃ p, t = p +:+ s.

(** The world after one more clock reading. *)
Definition advance (w : World) : World :=
  mkWorld (S (ticks w)) (trace w) (files w).

(** The normalized record of [row] names its tile: [knowledge_id] and
    [topic] are non-empty strings. *)
Definition ids_nonempty (env : Env) (row : gmap string pyval) (w : World) : Prop :=
  ∃ out kid top,
    (convert_d1_to_iath_v1_compatible env (PDict row) w).1 = Return out ∧
    path_get out ["metadata"; "knowledge_id"] = Some kid ∧ nonempty_text kid = true ∧
    path_get out ["metadata"; "topic"] = Some top ∧ nonempty_text top = true.

(** The normalized record of [row] splits the content string [c] of the
    row: [thinking_process] is the prefix followed by [c], [final_response]
    is [c]. *)
Definition content_split (env : Env) (row : gmap string pyval) (w : World) : Prop :=
  ∃ out c,
    (convert_d1_to_iath_v1_compatible env (PDict row) w).1 = Return out ∧
    dict_get row "content" (PStr EmptyString) = PStr c ∧
    path_get out ["content"; "thinking_process"] = Some (PStr (PREFIX +:+ c)) ∧
    path_get out ["content"; "final_response"] = Some (PStr c) ∧
    str_suffix c (PREFIX +:+ c).


Definition EXPORT_URL : string := BACKEND_API_URL +:+ EXPORT_ENDPOINT.

End Props.
Export Props.

Module Samples.

(** An environment: the clock shows [T0], [T1], ...; the encoder returns
    no bytes; the disk is writable. *)
Definition sample_env (f : fetch_result) : Env :=
  mkEnv (λ n, "T" +:+ string_of_Z (Z.of_nat n)) (λ _, "?") f
        (λ _ _, Return []) true.

Definition quiet_env : Env := sample_env FetchRequestError.

Definition row_full : gmap string pyval :=
  {[ "id" := PStr "k1"; "topic" := PStr "Test"; "content" := PStr "Answer";
     "coordinates_x" := PFloat F64_ONE ]}.

Definition row_blank_topic : gmap string pyval :=
  {[ "id" := PStr "k1"; "topic" := PStr EmptyString ]}.

Definition row_null_content : gmap string pyval :=
  {[ "id" := PStr "k1"; "topic" := PStr "Test"; "content" := PNone ]}.

Definition export_two : pyval :=
  PDict {[ "knowledge_tiles" := PList [PDict row_full; PDict ∅];
           "users" := PList [] ]}.

(** The two records [main] builds from [export_two]. *)
Definition normalized_two : list pyval :=
  match for_each (convert_d1_to_iath_v1_compatible (sample_env (FetchOk export_two)))
                 [PDict row_full; PDict ∅] (mkWorld 2 [] ∅) with
  | (Return outs, _) => outs
  | (Raise _, _) => []
  end.


(** The magic spells IATH; the current version is 1. *)
Definition sample_format : Format :=
  mkFormat (Byte.x49, Byte.x41, Byte.x54, Byte.x48) Byte.x01.

Definition F64_ONE_AND_HALF : Z := 0x3FF8000000000000.

Definition sample_tile : Tile :=
  mkTile "k1" "Test" "2024-01-01T00:00:00"
         (mkFloat3 F64_ONE 0x4000000000000000 0x4008000000000000)
         (mkFloat3 F64_ZERO F64_ZERO F64_ZERO)
         EmptyString "Answer" "pending_review" F64_HALF ["r1"; "r2"].

Definition overconfident_tile : Tile :=
  mkTile "k2" "Test" "2024-01-01T00:00:00"
         (mkFloat3 F64_ZERO F64_ZERO F64_ZERO)
         (mkFloat3 F64_ZERO F64_ZERO F64_ZERO)
         EmptyString "Answer" "pending_review" F64_ONE_AND_HALF [].

Definition sample_batch : TileBatch :=
  mkBatch Byte.x01 Byte.x01 [sample_tile; sample_tile].

End Samples.
Export Samples.

(* ===================================================================== *)
(** * Further properties of the script, and their sample inputs          *)
(* ===================================================================== *)

Module Behaviour.

(** A value with a [.get] method. *)
Definition is_dict (v : pyval) : bool :=
  match v with
  | PDict _ => true
  | _ => false
  end.

(** A line of log output. *)
Definition is_print (e : event) : bool :=
  match e with
  | EvPrint _ => true
  | _ => false
  end.


(** Where the value of a row key is copied to in the record. *)
Definition copied_fields : list (string * list string) :=
  [("id", ["metadata"; "knowledge_id"]);
   ("topic", ["metadata"; "topic"]);
   ("created_at", ["metadata"; "created_at"]);
   ("content", ["content"; "final_response"]);
   ("verification_status", ["verification"; "status"])].

(** The row keys of the three components of [medical_space], in order. *)
Definition coordinate_keys : list string :=
  ["coordinates_x"; "coordinates_y"; "coordinates_z"].

(** What a field of the record holds when the row lacks the key, the
    clock showing reading [t] during the call. *)
Definition field_defaults (env : Env) (t : nat) : list (string * list string * pyval) :=
  [("id", ["metadata"; "knowledge_id"], PNone);
   ("topic", ["metadata"; "topic"], PStr "Untitled Topic");
   ("created_at", ["metadata"; "created_at"], PStr (clock_iso env t));
   ("content", ["content"; "final_response"], PStr EmptyString);
   ("content", ["content"; "thinking_process"], PStr PREFIX)].

(** The log line, the request and the count line every export with
    [n_tiles] tiles and [n_users] users starts with. *)
Definition opening : list event :=
  [EvPrint (MsgExporting 0 EXPORT_URL); EvHttpGet EXPORT_URL].

Definition counted (n_tiles n_users : nat) : list event :=
  opening ++ [EvPrint (MsgCounts 1 n_tiles n_users)].

(** The list [main] hands to the encoder for the rows [rows]: the
    comprehension runs when the clock has been read twice. *)
Definition handed_over (env : Env) (rows : list (gmap string pyval)) : list pyval :=
  match (for_each (convert_d1_to_iath_v1_compatible env) (PDict <$> rows)
                  (mkWorld 2 [] ∅)).1 with
  | Return outs => outs
  | Raise _ => []
  end.

(** The actions of an export that goes through, from the construction of
    the encoder on: [outs] is handed over, [data] comes back and is
    written, and [t] is the clock reading of the closing message. *)
Definition closing (outs : list pyval) (data : list byte) (t : nat) : list event :=
  [EvEncoderNew; EvEncodeBatch outs 1;
   EvOpenWb OUTPUT_FILENAME; EvWrite OUTPUT_FILENAME data;
   EvPrint (MsgExported t OUTPUT_FILENAME);
   EvGetSize OUTPUT_FILENAME; EvPrint (MsgFileSize (length data))].

(** How deeply lists and dicts are nested in a value. *)
Fixpoint depth (v : pyval) : nat :=
  match v with
  | PDict m => S (map_fold (λ _ v' acc, Nat.max (depth v') acc) 0%nat m)
  | PList l => S (foldr (λ v' acc, Nat.max (depth v') acc) 0%nat l)
  | _ => 0%nat
  end.



(** An environment whose encoder refuses every batch. *)
Definition failing_encoder_env (f : fetch_result) : Env :=
  mkEnv (λ n, "T" +:+ string_of_Z (Z.of_nat n)) (λ _, "?") f
        (λ _ _, Raise (EncoderError "invalid tile")) true.

(** An environment whose encoder returns three bytes and whose disk
    cannot be written. *)
Definition readonly_env (f : fetch_result) : Env :=
  mkEnv (λ n, "T" +:+ string_of_Z (Z.of_nat n)) (λ _, "?") f
        (λ _ _, Return [Byte.x49; Byte.x41; Byte.x54]) false.

(** An environment whose encoder returns three bytes, on a writable
    disk. *)
Definition three_byte_env (f : fetch_result) : Env :=
  mkEnv (λ n, "T" +:+ string_of_Z (Z.of_nat n)) (λ _, "?") f
        (λ _ _, Return [Byte.x49; Byte.x41; Byte.x54]) true.

Definition export_two_fields : gmap string pyval :=
  {[ "knowledge_tiles" := PList [PDict row_full; PDict ∅];
     "users" := PList [] ]}.


(** A row whose topic is null. *)
Definition row_null_topic : gmap string pyval :=
  {[ "id" := PStr "k1"; "topic" := PNone ]}.

(** An export whose second tile is a number. *)
Definition export_bad_tile : gmap string pyval :=
  {[ "knowledge_tiles" := PList [PDict row_full; PInt 3];
     "users" := PList [] ]}.

(** An export whose user list is null. *)
Definition export_null_users : gmap string pyval :=
  {[ "knowledge_tiles" := PList [PDict row_full];
     "users" := PNone ]}.

(** An export whose tiles are an object keyed by id, not an array. *)
Definition export_keyed_tiles : gmap string pyval :=
  {[ "knowledge_tiles" := PDict {[ "k1" := PDict row_full ]};
     "users" := PList [] ]}.

(** A file system with two files. *)
Definition two_files : gmap string (list byte) :=
  {[ "exported_db.iath" := [Byte.x00]; "notes.txt" := [Byte.x61] ]}.

End Behaviour.
Export Behaviour.

(* ===================================================================== *)
(** * The record normalizer                                               *)
(* ===================================================================== *)

Section Normalizer.

Context (env : Env).
Implicit Types (row : gmap string pyval) (w : World).

Local Abbreviation convert := (convert_d1_to_iath_v1_compatible env).

(** On a dict the normalizer returns, having read the clock once. *)
Lemma convert_dict_returns row w :
  ∃ out, convert (PDict row) w = (Return (PDict out), advance w).
Proof. eexists. reflexivity. Qed.

(** On anything else the first [.get] raises and nothing has happened. *)
Lemma convert_non_dict_raises v w :
  (∀ row, v ≠ PDict row) → convert v w = (Raise AttributeError, w).
Proof.
  intros Hv. destruct v as [| | | | | |row]; try reflexivity.
  by destruct (Hv row).
Qed.

(** The record depends on the clock reading only, not on the trace or the
    files. *)
Lemma convert_value_clock row w tr fs :
  (convert (PDict row) (mkWorld (ticks w) tr fs)).1 = (convert (PDict row) w).1.
Proof. reflexivity. Qed.

(** A call that returns was given a dict. *)
Lemma convert_returns_inv v w out w' :
  convert v w = (Return out, w') →
  ∃ row, v = PDict row ∧ w' = advance w.
Proof.
  intros H. destruct v as [| | | | | |row]; [discriminate H ..|].
  exists row. split; [reflexivity|].
  destruct (convert_dict_returns row w) as [o Ho]. rewrite Ho in H. congruence.
Qed.

(** A call that raises has left the world as it was. *)
Lemma convert_raises_inv v w e w' :
  convert v w = (Raise e, w') → w' = w.
Proof.
  intros H. destruct v as [| | | | | |row]; [injection H; congruence ..|].
  destruct (convert_dict_returns row w) as [o Ho]. rewrite Ho in H. discriminate.
Qed.

(** C5: the normalizer is total on dictionary inputs.  For every source
    row, whatever fields it has or lacks, the call returns (it does not
    raise) a dict with exactly the four sections metadata, coordinates,
    content and verification, each a dict with exactly its fields. *)
Theorem convert_total_on_dicts row w :
  ∃ out md co ct vf,
    convert (PDict row) w = (Return (PDict out), advance w) ∧
    dom out = {["metadata"; "coordinates"; "content"; "verification"]} ∧
    out !! "metadata" = Some (PDict md) ∧
    dom md = {["knowledge_id"; "topic"; "created_at"]} ∧
    out !! "coordinates" = Some (PDict co) ∧
    dom co = {["medical_space"; "meta_space"]} ∧
    out !! "content" = Some (PDict ct) ∧
    dom ct = {["thinking_process"; "final_response"]} ∧
    out !! "verification" = Some (PDict vf) ∧
    dom vf = {["status"; "initial_certainty"; "reviewers"]}.
Proof.
  do 5 eexists. split; [reflexivity|].
  repeat split; try reflexivity;
    rewrite ?dom_insert_L, ?dom_singleton_L; set_solver.
Qed.

(** C4: for every source row, also one that lacks coordinate fields, the
    normalized record's [medical_space] and [meta_space] are lists of
    exactly three elements. *)
Theorem convert_spaces_have_three row w :
  ∃ out ms mt,
    (convert (PDict row) w).1 = Return out ∧
    path_get out ["coordinates"; "medical_space"] = Some (PList ms) ∧
    length ms = 3%nat ∧
    path_get out ["coordinates"; "meta_space"] = Some (PList mt) ∧
    length mt = 3%nat.
Proof. do 3 eexists. repeat split; reflexivity. Qed.

(** C6: for every source row without a [verification_status] field, the
    normalized verification status is the string [pending_review]. *)
Theorem convert_default_status row w :
  row !! "verification_status" = None →
  ∃ out,
    (convert (PDict row) w).1 = Return out ∧
    path_get out ["verification"; "status"] = Some (PStr "pending_review").
Proof.
  intros Hmiss. eexists. split; [reflexivity|].
  change (Some (dict_get row "verification_status" (PStr "pending_review"))
          = Some (PStr "pending_review")).
  unfold dict_get. by rewrite Hmiss.
Qed.

(** C8: whatever the row supplies, the normalized [meta_space] is
    [[0.0, 0.0, 0.0]], [initial_certainty] is [0.5] and [reviewers] is the
    empty list: the three are constants of the normalizer. *)
Theorem convert_constants row w :
  ∃ out,
    (convert (PDict row) w).1 = Return out ∧
    path_get out ["coordinates"; "meta_space"]
      = Some (PList [PFloat F64_ZERO; PFloat F64_ZERO; PFloat F64_ZERO]) ∧
    path_get out ["verification"; "initial_certainty"] = Some (PFloat F64_HALF) ∧
    path_get out ["verification"; "reviewers"] = Some (PList []).
Proof. eexists. repeat split; reflexivity. Qed.

(** The two identifying fields are copied: [knowledge_id] is the row's
    [id] ([None] when there is none), [topic] the row's [topic] or the
    default title. *)
Lemma convert_metadata row w :
  ∃ out,
    (convert (PDict row) w).1 = Return out ∧
    path_get out ["metadata"; "knowledge_id"] = Some (dict_get row "id" PNone) ∧
    path_get out ["metadata"; "topic"]
      = Some (dict_get row "topic" (PStr "Untitled Topic")).
Proof. eexists. repeat split; reflexivity. Qed.

(** C2 (amended): for every source row whose [id] is a non-empty string
    and whose [topic] is absent or a non-empty string, the normalized
    record has a non-empty [knowledge_id] and a non-empty [topic]. *)
Theorem convert_ids_nonempty row w kid :
  row !! "id" = Some kid →
  nonempty_text kid = true →
  nonempty_text (dict_get row "topic" (PStr "Untitled Topic")) = true →
  ids_nonempty env row w.
Proof.
  intros Hid Hkid Htop.
  destruct (convert_metadata row w) as (out & Hout & Hk & Ht).
  exists out, kid, (dict_get row "topic" (PStr "Untitled Topic")).
  repeat split; try assumption.
  rewrite Hk. unfold dict_get. by rewrite Hid.
Qed.

(** The content fields: [final_response] is the row's content as it is,
    [thinking_process] the prefix followed by the content as an f-string
    prints it. *)
Lemma convert_content row w :
  ∃ out,
    (convert (PDict row) w).1 = Return out ∧
    path_get out ["content"; "thinking_process"]
      = Some (PStr (PREFIX +:+ format_value (repr_other env)
                                 (dict_get row "content" (PStr EmptyString)))) ∧
    path_get out ["content"; "final_response"]
      = Some (dict_get row "content" (PStr EmptyString)).
Proof. eexists. repeat split; reflexivity. Qed.

(** C9 (amended): for every source row whose [content] is missing or a
    string [c] (the empty string when missing), [thinking_process] is the
    prefix followed by [c], [final_response] is [c], and so
    [final_response] ends [thinking_process]. *)
Theorem convert_content_split row w c :
  dict_get row "content" (PStr EmptyString) = PStr c →
  content_split env row w.
Proof.
  intros Hc.
  destruct (convert_content row w) as (out & Hout & Ht & Hf).
  exists out, c. rewrite Hc in Ht, Hf.
  repeat split; try assumption. by exists PREFIX.
Qed.

End Normalizer.

(** A row without the field, normalized. *)
Lemma convert_default_status_witness :
  ∃ out,
    (convert_d1_to_iath_v1_compatible quiet_env (PDict row_full) (init_world ∅)).1 = Return out ∧
    path_get out ["verification"; "status"] = Some (PStr "pending_review").
Proof. apply (convert_default_status quiet_env row_full (init_world ∅)). reflexivity. Defined.

(** A row with an id and a topic. *)
Lemma convert_ids_nonempty_witness : ids_nonempty quiet_env row_full (init_world ∅).
Proof.
  apply (convert_ids_nonempty quiet_env row_full (init_world ∅) (PStr "k1"));
    reflexivity.
Defined.

(** C2 as stated fails: a row whose topic is the empty string keeps it,
    the default title being used for a missing key only. *)
Lemma convert_ids_nonempty_counterexample :
  ∃ out,
    (convert_d1_to_iath_v1_compatible quiet_env (PDict row_blank_topic) (init_world ∅)).1
      = Return out ∧
    path_get out ["metadata"; "topic"] = Some (PStr EmptyString) ∧
    ¬ ids_nonempty quiet_env row_blank_topic (init_world ∅).
Proof.
  destruct (convert_metadata quiet_env row_blank_topic (init_world ∅))
    as (out & Hout & _ & Htop).
  exists out. repeat split; try assumption.
  intros (out' & kid & top & Hout' & _ & _ & Htop' & Hne).
  rewrite Hout in Hout'. injection Hout' as <-.
  rewrite Htop in Htop'. injection Htop' as <-.
  discriminate Hne.
Qed.

(** A row whose content is a string. *)
Lemma convert_content_split_witness : content_split quiet_env row_full (init_world ∅).
Proof.
  apply (convert_content_split quiet_env row_full (init_world ∅) "Answer").
  reflexivity.
Defined.

(** C9 as stated fails: a row whose content is null gets the
    [thinking_process] ending in the word None and a [final_response] that
    is [None], not a string. *)
Lemma convert_content_split_counterexample :
  ∃ out,
    (convert_d1_to_iath_v1_compatible quiet_env (PDict row_null_content) (init_world ∅)).1
      = Return out ∧
    path_get out ["content"; "thinking_process"] = Some (PStr (PREFIX +:+ "None")) ∧
    path_get out ["content"; "final_response"] = Some PNone ∧
    ¬ content_split quiet_env row_null_content (init_world ∅).
Proof.
  destruct (convert_content quiet_env row_null_content (init_world ∅))
    as (out & Hout & Ht & Hf).
  exists out. repeat split; try assumption.
  intros (out' & c & Hout' & _ & _ & Hf' & _).
  rewrite Hout in Hout'. injection Hout' as <-.
  rewrite Hf in Hf'. discriminate Hf'.
Qed.

(* ===================================================================== *)
(** * The driver                                                          *)
(* ===================================================================== *)

Section Driver.

Context (env : Env).
Implicit Types (w : World) (items outs : list pyval).

Local Abbreviation convert := (convert_d1_to_iath_v1_compatible env).

Lemma for_each_cons {A B} (f : A → M B) x l w :
  for_each f (x :: l) w =
    match f x w with
    | (Return y, w1) =>
        match for_each f l w1 with
        | (Return ys, w2) => (Return (y :: ys), w2)
        | (Raise e, w2) => (Raise e, w2)
        end
    | (Raise e, w1) => (Raise e, w1)
    end.
Proof.
  simpl. unfold mbind, M_bind. destruct (f x w) as [[y|e] w1]; [|reflexivity].
  destruct (for_each f l w1) as [[ys|e] w2]; reflexivity.
Qed.

(** The comprehension over the tiles: when it returns, it has normalized
    every item in order, the i-th with the i-th clock reading from its
    start, and has left trace and files alone. *)
Lemma for_each_convert_returns items : ∀ w outs w',
  for_each convert items w = (Return outs, w') →
  w' = mkWorld (ticks w + length items) (trace w) (files w) ∧
  length outs = length items ∧
  ∀ i t, items !! i = Some t →
    ∃ row out, t = PDict row ∧ outs !! i = Some out ∧
      ∀ tr fs, (convert (PDict row) (mkWorld (ticks w + i) tr fs)).1 = Return out.
Proof.
  induction items as [|x items IH]; intros w outs w' H.
  - injection H as <- <-. repeat split.
    + destruct w; simpl. f_equal. lia.
    + intros i t Hi. discriminate Hi.
  - rewrite for_each_cons in H.
    destruct (convert x w) as [[y|e] w1] eqn:Hx; [|discriminate H].
    destruct (for_each convert items w1) as [[ys|e] w2] eqn:Hrest; [|discriminate H].
    injection H as <- <-.
    destruct (convert_returns_inv env _ _ _ _ Hx) as (row & -> & ->).
    destruct (IH _ _ _ Hrest) as (-> & Hlen & Hith).
    repeat split.
    + simpl. f_equal. lia.
    + simpl. by rewrite Hlen.
    + intros [|i] t Hi; simpl in Hi.
      * injection Hi as <-. exists row, y. repeat split.
        intros tr fs. rewrite Nat.add_0_r.
        rewrite convert_value_clock. by rewrite Hx.
      * destruct (Hith i t Hi) as (row' & out & -> & Hout & Hval).
        exists row', out. repeat split; [assumption|].
        intros tr fs. specialize (Hval tr fs). simpl in Hval.
        by replace (ticks w + S i)%nat with (S (ticks w + i)) by lia.
Qed.

(** When the comprehension raises, trace and files are still untouched. *)
Lemma for_each_convert_raises items : ∀ w e w',
  for_each convert items w = (Raise e, w') →
  trace w' = trace w ∧ files w' = files w.
Proof.
  induction items as [|x items IH]; intros w e w' H.
  - discriminate H.
  - rewrite for_each_cons in H.
    destruct (convert x w) as [[y|e1] w1] eqn:Hx.
    + destruct (convert_returns_inv env _ _ _ _ Hx) as (row & -> & ->).
      destruct (for_each convert items (advance w)) as [[ys|e2] w2] eqn:Hrest;
        [discriminate H|].
      injection H as <- <-. apply (IH _ _ _ Hrest).
    + injection H as <- <-. by rewrite (convert_raises_inv env _ _ _ _ Hx).
Qed.

(** A comprehension over strings raises at the first of them. *)
Lemma for_each_convert_str s rest w :
  for_each convert (PStr s :: rest) w = (Raise AttributeError, w).
Proof. rewrite for_each_cons. reflexivity. Qed.

(** Over dicts the comprehension returns. *)
Lemma for_each_convert_dicts rows : ∀ w,
  ∃ outs, for_each convert (PDict <$> rows) w
          = (Return outs, mkWorld (ticks w + length rows) (trace w) (files w)).
Proof.
  induction rows as [|row rows IH]; intros w.
  - exists []. destruct w. simpl. unfold mret, M_ret. do 2 f_equal. lia.
  - destruct (convert_dict_returns env row w) as [out Hout].
    destruct (IH (advance w)) as [outs Houts].
    exists (PDict out :: outs).
    rewrite fmap_cons, for_each_cons, Hout, Houts. simpl.
    do 2 f_equal. lia.
Qed.

End Driver.

Section DriverRuns.

Context (env : Env).
Implicit Types (fs : gmap string (list byte)).

Local Abbreviation convert := (convert_d1_to_iath_v1_compatible env).

Local Ltac run_script :=
  unfold mbind, M_bind, mret, M_ret, lift, now, print, emit, raise, init_world;
  simpl.

(** The event is none of those listed. *)
Local Ltac not_in_trace :=
  let H := fresh in
  intros H; simpl in H;
  rewrite ?elem_of_app, ?elem_of_cons, ?elem_of_nil in H;
  intuition discriminate.


(** A string that is not empty has a first character. *)
Lemma group_chars_cons b bs : ∃ c cs, group_chars (b :: bs) = c :: cs.
Proof.
  destruct bs as [|b' bs']; [simpl; eauto|].
  change (group_chars (b :: b' :: bs'))
    with (if is_continuation b'
          then match group_chars (b' :: bs') with
               | c :: cs => (b :: c) :: cs
               | [] => [[b]]
               end
          else [b] :: group_chars (b' :: bs')).
  destruct (is_continuation b'); [|eauto].
  destruct (group_chars (b' :: bs')); eauto.
Qed.

(** Iterating a value that is true in a condition visits the elements of a
    list, or else starts with a string (a key or a character). *)
Lemma items_of_truthy kt items :
  py_truthy kt = true →
  py_iter kt = Return items →
  (∃ ts, kt = PList ts ∧ items = ts) ∨ (∃ s rest, items = PStr s :: rest).
Proof.
  intros Ht Hi. destruct kt as [| | | |s|l|m]; try discriminate Hi.
  - right. injection Hi as <-. simpl in Ht.
    unfold str_chars. destruct s as [|a s]; [discriminate Ht|].
    change (list_byte_of_string (String a s))
      with (byte_of_ascii a :: list_byte_of_string s).
    destruct (group_chars_cons (byte_of_ascii a) (list_byte_of_string s))
      as (c & cs & ->).
    simpl. eauto.
  - left. injection Hi as <-. eauto.
  - right. injection Hi as <-. simpl in Ht.
    unfold size, map_size in Ht.
    destruct (map_to_list m) as [|[k v] kvs] eqn:Hm.
    + rewrite (map_to_list_empty_iff m) in Hm. subst m. discriminate Ht.
    + simpl. eauto.
Qed.

(** Whenever [main] hands a list to [encode_batch], the fetched
    [knowledge_tiles] is a list of the same length, the domain code is 1,
    and the i-th element handed over is the normalization of the i-th
    fetched tile (made at clock reading 2 + i, the two readings before it
    being those of the log lines). *)
Lemma main_handover_inv fs tiles code :
  EvEncodeBatch tiles code ∈ trace (run_main env fs).2 →
  ∃ data ts,
    fetch env = FetchOk (PDict data) ∧
    dict_get data "knowledge_tiles" (PList []) = PList ts ∧
    code = 1 ∧
    length tiles = length ts ∧
    ∀ i t, ts !! i = Some t →
      ∃ row out, t = PDict row ∧ tiles !! i = Some out ∧
        ∀ tr fs', (convert (PDict row) (mkWorld (2 + i) tr fs')).1 = Return out.
Proof.
  unfold run_main, main.
  destruct (fetch env) as [| |exported] eqn:Hf.
  - run_script. not_in_trace.
  - run_script. not_in_trace.
  - destruct exported as [| | | | | |data];
      try (run_script; not_in_trace).
    unfold py_get.
    set (kt := dict_get data "knowledge_tiles" (PList [])).
    set (users := dict_get data "users" (PList [])).
    run_script.
    destruct (py_len kt) as [n|e] eqn:Hn; [|simpl; not_in_trace].
    destruct (py_len users) as [m|e] eqn:Hm; [|simpl; not_in_trace].
    simpl.
    destruct (py_truthy kt) eqn:Ht; simpl; [|not_in_trace].
    destruct (py_iter kt) as [items|e] eqn:Hi; [|simpl; not_in_trace].
    destruct (for_each convert items _) as [[outs|e] w3] eqn:Hfor.
    + destruct (for_each_convert_returns env _ _ _ _ Hfor) as (-> & Hlen & Hith).
      simpl.
      destruct (items_of_truthy kt items Ht Hi) as [(ts & Hkt & ->) | (s & rest & ->)];
        [|rewrite for_each_convert_str in Hfor; discriminate Hfor].
      intros H.
      assert (Henc : tiles = outs ∧ code = 1).
      { destruct (encode_batch env outs 1) as [bytes|e]; simpl in H;
          [unfold write_file in H; destruct (disk_writable env)|];
          revert H; run_script; unfold getsize, stat; run_script;
          try destruct (_ !! OUTPUT_FILENAME); simpl;
          rewrite ?elem_of_cons, ?elem_of_app, ?elem_of_nil;
          intros H; repeat destruct H as [H|H];
          try discriminate H; try (injection H as -> ->; done); try done. }
      destruct Henc as [-> ->].
      exists data, ts. repeat split; assumption.
    + destruct (for_each_convert_raises env _ _ _ _ Hfor) as [Htr Hfs].
      simpl. rewrite Htr. not_in_trace.
Qed.

(** The encoder is reached: a non-empty list of dicts is normalized and
    handed over, provided [len(users)] is defined. *)
Lemma main_hands_over_tiles fs data rows n :
  fetch env = FetchOk (PDict data) →
  data !! "knowledge_tiles" = Some (PList (PDict <$> rows)) →
  rows ≠ [] →
  py_len (dict_get data "users" (PList [])) = Return n →
  ∃ outs, EvEncodeBatch outs 1 ∈ trace (run_main env fs).2 ∧
          length outs = length rows.
Proof.
  intros Hf Hkt Hne Hlen.
  assert (Hget : dict_get data "knowledge_tiles" (PList []) = PList (PDict <$> rows)).
  { unfold dict_get. by rewrite Hkt. }
  assert (Hnz : Nat.eqb (length (PDict <$> rows)) 0 = false).
  { destruct rows; [done|reflexivity]. }
  unfold run_main, main. rewrite Hf. unfold py_get. rewrite Hget.
  remember (PDict <$> rows) as items eqn:Hitems.
  run_script. rewrite Hlen. simpl. rewrite Hnz. simpl.
  match goal with
  | |- context [for_each convert items ?w] =>
      destruct (for_each_convert_dicts env rows w) as [outs Houts];
      rewrite <- Hitems in Houts; rewrite Houts;
      destruct (for_each_convert_returns env _ _ _ _ Houts) as (_ & Hl & _)
  end.
  subst items.
  exists outs. rewrite length_fmap in Hl. split; [|exact Hl].
  simpl.
  destruct (encode_batch env outs 1) as [bytes|e]; simpl;
    [unfold write_file; destruct (disk_writable env)|];
    run_script; unfold getsize, stat; run_script;
    try destruct (_ !! OUTPUT_FILENAME); simpl;
    rewrite ?elem_of_cons, ?elem_of_app; tauto.
Qed.

End DriverRuns.





(* ===================================================================== *)
(** * Bytes and little-endian integers                                    *)
(* ===================================================================== *)

Section WireFacts.

Lemma Z_of_byte_range b : 0 ≤ Z_of_byte b < 256.
Proof.
  unfold Z_of_byte. pose proof (Byte.to_N_bounded b). lia.
Qed.

Lemma Z_of_byte_of_Z z : Z_of_byte (byte_of_Z z) = z mod 256.
Proof.
  unfold byte_of_Z, Z_of_byte.
  assert (Hr : 0 ≤ z mod 256 < 256) by (apply Z.mod_pos_bound; lia).
  pose proof (Byte.to_of_N_option_map (Z.to_N (z mod 256))) as Hm.
  destruct (Byte.of_N (Z.to_N (z mod 256))) as [b|] eqn:Hb; simpl in *.
  - apply Byte.to_of_N in Hb. rewrite Hb. lia.
  - destruct (N.leb_spec (Z.to_N (z mod 256)) 255); [discriminate Hm | lia].
Qed.

Lemma byte_of_Z_of_byte b : byte_of_Z (Z_of_byte b) = b.
Proof.
  unfold byte_of_Z. rewrite Z.mod_small by apply Z_of_byte_range.
  unfold Z_of_byte. rewrite N2Z.id, Byte.of_to_N. reflexivity.
Qed.

Lemma Z_of_byte_inj a b : Z_of_byte a = Z_of_byte b → a = b.
Proof.
  intros H. rewrite <- (byte_of_Z_of_byte a), <- (byte_of_Z_of_byte b).
  by rewrite H.
Qed.

Lemma length_le_bytes n : ∀ z, length (le_bytes n z) = n.
Proof. induction n as [|n IH]; intros z; simpl; [reflexivity | by rewrite IH]. Qed.

(** Reading back what was written gives the value modulo [256 ^ n]. *)
Lemma le_value_le_bytes n : ∀ z, le_value (le_bytes n z) = z mod 256 ^ Z.of_nat n.
Proof.
  induction n as [|n IH]; intros z.
  - simpl. by rewrite Z.mod_1_r.
  - cbn [le_bytes le_value]. rewrite Z_of_byte_of_Z, IH.
    rewrite Nat2Z.inj_succ, Z.pow_succ_r by lia.
    rewrite Z.rem_mul_r by lia. reflexivity.
Qed.

Lemma le_value_le_bytes_small n z :
  0 ≤ z < 256 ^ Z.of_nat n → le_value (le_bytes n z) = z.
Proof. intros H. rewrite le_value_le_bytes. by apply Z.mod_small. Qed.

End WireFacts.

(* ===================================================================== *)
(** * The codec: every reader undoes its writer                           *)
(* ===================================================================== *)

Section RoundTrip.

Implicit Types (rest : list byte) (s : string) (t : Tile).

Lemma take_bytes_app (raw rest : list byte) e :
  take_bytes (Z.of_nat (length raw)) e (raw ++ rest) = Ok (raw, rest).
Proof.
  unfold take_bytes. rewrite length_app, Nat2Z.id.
  destruct (Z.leb_spec (Z.of_nat (length raw)) (Z.of_nat (length raw + length rest)));
    [|lia].
  by rewrite take_app_length, drop_app_length.
Qed.

Lemma read_u32_encode n rest :
  0 ≤ n < 2 ^ 32 → read_u32 (encode_u32 n ++ rest) = Ok (n, rest).
Proof.
  intros Hn. unfold read_u32, encode_u32, mbind, Parser_bind.
  change 4 with (Z.of_nat (length (le_bytes 4 n))) at 1.
  rewrite take_bytes_app. unfold mret, Parser_ret.
  by rewrite le_value_le_bytes_small.
Qed.

Lemma read_f64_encode bits rest :
  is_f64 bits = true → read_f64 (encode_f64 bits ++ rest) = Ok (bits, rest).
Proof.
  unfold is_f64. intros [H1 H2]%andb_prop. apply Z.leb_le in H1. apply Z.ltb_lt in H2.
  unfold read_f64, encode_f64, mbind, Parser_bind.
  change 8 with (Z.of_nat (length (le_bytes 8 bits))) at 1.
  rewrite take_bytes_app. unfold mret, Parser_ret.
  by rewrite le_value_le_bytes_small.
Qed.

Lemma read_text_encode s rest :
  text_ok s = true → read_text (encode_text s ++ rest) = Ok (s, rest).
Proof.
  unfold text_ok, fits_u32. intros [Hutf Hlen]%andb_prop. apply Z.ltb_lt in Hlen.
  unfold read_text, encode_text. cbn zeta.
  unfold mbind at 1. unfold Parser_bind at 1.
  rewrite <- app_assoc, read_u32_encode by lia.
  unfold mbind, Parser_bind. rewrite take_bytes_app, Hutf.
  unfold mret, Parser_ret. by rewrite string_of_list_byte_of_string.
Qed.

Lemma read_float3_encode v rest :
  float3_ok v = true → read_float3 (encode_float3 v ++ rest) = Ok (v, rest).
Proof.
  unfold float3_ok. intros [[Hx Hy]%andb_prop Hz]%andb_prop.
  unfold read_float3, encode_float3, mbind, Parser_bind.
  rewrite <- !app_assoc.
  rewrite read_f64_encode by assumption.
  rewrite read_f64_encode by assumption.
  rewrite read_f64_encode by assumption.
  by destruct v.
Qed.

(** A reader that undoes a writer on every good item reads back a whole
    sequence of good items. *)
Lemma read_many_encode {A} (p : Parser A) (enc : A → list byte) (good : A → bool) :
  (∀ x rest, good x = true → p (enc x ++ rest) = Ok (x, rest)) →
  ∀ xs rest, forallb good xs = true →
    read_many p (length xs) (concat (enc <$> xs) ++ rest) = Ok (xs, rest).
Proof.
  intros Hp. induction xs as [|x xs IH]; intros rest Hgood.
  - reflexivity.
  - simpl in Hgood. apply andb_prop in Hgood as [Hx Hxs].
    cbn [length read_many]. rewrite fmap_cons. cbn [concat].
    unfold mbind, Parser_bind. rewrite <- app_assoc, (Hp _ _ Hx).
    fold (@mbind Parser _). unfold mbind, Parser_bind.
    by rewrite (IH _ Hxs).
Qed.

End RoundTrip.

Section BatchRoundTrip.

Implicit Types (rest : list byte) (t : Tile) (ts : list Tile) (fmt : Format).

Local Ltac split_andb :=
  repeat match goal with
         | H : _ && _ = true |- _ => apply andb_prop in H as [? ?]
         end.

Local Ltac read_back L := rewrite L by assumption; cbv beta iota.

Lemma read_id_list_encode (ids : list string) rest :
  fits_u32 (length ids) = true →
  forallb text_ok ids = true →
  read_id_list (encode_id_list ids ++ rest) = Ok (ids, rest).
Proof.
  unfold fits_u32. intros Hlen%Z.ltb_lt Hids.
  unfold read_id_list, encode_id_list, mbind, Parser_bind.
  rewrite <- app_assoc, read_u32_encode by lia. cbv beta iota.
  rewrite Nat2Z.id.
  by apply (read_many_encode read_text encode_text text_ok read_text_encode).
Qed.

Lemma read_tile_encode t rest :
  tile_wf t = true → read_tile (encode_tile t ++ rest) = Ok (t, rest).
Proof.
  unfold tile_wf. intros H. split_andb.
  unfold read_tile, encode_tile, mbind, Parser_bind.
  rewrite <- !app_assoc.
  do 3 read_back read_text_encode.
  do 2 read_back read_float3_encode.
  do 3 read_back read_text_encode.
  read_back read_f64_encode.
  read_back read_id_list_encode.
  by destruct t.
Qed.

Lemma bytes_eqb_refl (bs : list byte) : bytes_eqb bs bs = true.
Proof. unfold bytes_eqb. by apply bool_decide_eq_true. Qed.

Lemma read_header_encode fmt domain (count : nat) rest :
  fits_u32 count = true →
  read_header fmt (encode_header fmt domain count ++ rest)
  = Ok ((domain, current_version fmt, Z.of_nat count), rest).
Proof.
  unfold fits_u32. intros Hc%Z.ltb_lt.
  unfold read_header, encode_header, mbind, Parser_bind.
  rewrite <- !app_assoc.
  assert (Hm : length (magic_bytes fmt) = 4%nat).
  { unfold magic_bytes. by destruct (magic fmt) as [[[a b] c] d]. }
  change 4 with (Z.of_nat 4) at 1. rewrite <- Hm, take_bytes_app.
  rewrite bytes_eqb_refl. cbn [negb app read_byte].
  rewrite Z.ltb_irrefl. cbn [read_byte].
  rewrite read_u32_encode by lia. reflexivity.
Qed.

(** Tiles that pass validation let the encoder through. *)
Lemma validate_from_valid ts : ∀ i,
  forallb valid_tile ts = true → validate_from i ts = None.
Proof.
  induction ts as [|t ts IH]; intros i H; [reflexivity|].
  simpl in H. apply andb_prop in H as [Ht Hts].
  unfold valid_tile in Ht. apply andb_prop in Ht as [_ Hv].
  apply bool_decide_eq_true in Hv. simpl. rewrite Hv. by apply IH.
Qed.

Lemma valid_tiles_wf ts :
  forallb valid_tile ts = true → forallb tile_wf ts = true.
Proof.
  induction ts as [|t ts IH]; [reflexivity|]. simpl.
  intros [Ht Hts]%andb_prop. unfold valid_tile in Ht.
  apply andb_prop in Ht as [Hwf _]. by rewrite Hwf, IH.
Qed.

(** C1: for every valid Tile Batch, [encode] succeeds and decoding its
    bytes gives back the batch itself: the same domain code and format
    version, the same tiles in the same order, each field equal, reviewers
    in their order and every float with its bit pattern.  (A valid batch
    has tiles that pass the encoder's validation and fit the wire form,
    and carries the version the codec writes.) *)
Theorem decode_encode_roundtrip fmt (b : TileBatch) :
  valid_batch fmt b = true →
  ∃ bs, encode_batch_of fmt b = Ok bs ∧ decode fmt bs = Ok b.
Proof.
  unfold valid_batch. intros H. split_andb.
  match goal with Hv : (_ =? _) = true |- _ => apply Z.eqb_eq, Z_of_byte_inj in Hv end.
  unfold encode_batch_of, encode. rewrite validate_from_valid by assumption.
  eexists. split; [reflexivity|].
  unfold decode, mbind, Parser_bind.
  rewrite <- (app_nil_r (concat _)).
  rewrite read_header_encode by assumption. cbv beta iota. cbn [fst snd].
  rewrite Nat2Z.id.
  rewrite (read_many_encode read_tile encode_tile tile_wf read_tile_encode)
    by by apply valid_tiles_wf.
  unfold mret, Parser_ret. destruct b; simpl in *. congruence.
Qed.

(** The first tile that fails validation decides the error. *)
Lemma validate_from_first ts : ∀ i k t reason,
  ts !! k = Some t →
  validate_tile t = Some reason →
  (∀ j t', (j < k)%nat → ts !! j = Some t' → validate_tile t' = None) →
  validate_from i ts = Some (ValidationError (i + k) reason).
Proof.
  induction ts as [|t0 ts IH]; intros i k t reason Hk Ht Hbefore; [discriminate Hk|].
  destruct k as [|k]; simpl in Hk.
  - injection Hk as ->. simpl. rewrite Ht. by rewrite Nat.add_0_r.
  - simpl. rewrite (Hbefore 0%nat t0) by (simpl; first [lia | reflexivity]).
    rewrite (IH (S i) k t reason Hk Ht).
    + do 2 f_equal. lia.
    + intros j t' Hj Hjt. apply (Hbefore (S j) t'); [lia | exact Hjt].
Qed.

(** An invalid tile anywhere makes validation fail at or before it. *)
Lemma validate_from_fails ts : ∀ i k t reason,
  ts !! k = Some t →
  validate_tile t = Some reason →
  ∃ j reason', (j ≤ k)%nat ∧ validate_from i ts = Some (ValidationError (i + j) reason').
Proof.
  induction ts as [|t0 ts IH]; intros i k t reason Hk Ht; [discriminate Hk|].
  simpl. destruct (validate_tile t0) as [r0|] eqn:H0.
  - exists 0%nat, r0. split; [lia|]. by rewrite Nat.add_0_r.
  - destruct k as [|k]; simpl in Hk; [congruence|].
    destruct (IH (S i) k t reason Hk Ht) as (j & r & Hj & Hv).
    exists (S j), r. split; [lia|]. rewrite Hv. do 2 f_equal. lia.
Qed.

(** C3: a batch with a tile whose [initial_certainty] is outside
    [0.0, 1.0] is not encoded.  [encode] fails with a [ValidationError]
    and the caller receives no byte, header included; the error carries
    the index of that tile when the tiles before it are valid (the first
    invalid tile is the one reported), and never a later one. *)
Theorem encode_rejects_certainty_out_of_range fmt ts (domain : byte) k t :
  ts !! k = Some t →
  certainty_in_range (initial_certainty t) = false →
  (∃ j reason, (j ≤ k)%nat ∧ encode fmt ts domain = Err (ValidationError j reason)) ∧
  ((∀ j t', (j < k)%nat → ts !! j = Some t' → validate_tile t' = None) →
   encode fmt ts domain = Err (ValidationError k CertaintyOutOfRange)) ∧
  emitted (encode fmt ts domain) = [].
Proof.
  intros Hk Hc.
  assert (Ht : validate_tile t = Some CertaintyOutOfRange).
  { unfold validate_tile. by rewrite Hc. }
  destruct (validate_from_fails ts 0 k t _ Hk Ht) as (j & r & Hj & Hv).
  unfold encode. repeat split.
  - exists j, r. split; [exact Hj|]. by rewrite Hv.
  - intros Hbefore. by rewrite (validate_from_first ts 0 k t _ Hk Ht Hbefore).
  - by rewrite Hv.
Qed.

End BatchRoundTrip.

(** A batch of two tiles goes through the codec unchanged. *)
Lemma decode_encode_roundtrip_witness :
  ∃ bs, encode_batch_of sample_format sample_batch = Ok bs ∧
        decode sample_format bs = Ok sample_batch.
Proof. apply (decode_encode_roundtrip sample_format sample_batch). reflexivity. Defined.

(** A valid tile followed by one of certainty 1.5: index 1 is reported. *)
Lemma encode_rejects_certainty_out_of_range_witness :
  encode sample_format [sample_tile; overconfident_tile] Byte.x01
    = Err (ValidationError 1 CertaintyOutOfRange) ∧
  emitted (encode sample_format [sample_tile; overconfident_tile] Byte.x01) = [].
Proof.
  destruct (encode_rejects_certainty_out_of_range sample_format
              [sample_tile; overconfident_tile] Byte.x01 1 overconfident_tile)
    as (_ & Hfirst & Hnone); [reflexivity | reflexivity |].
  split; [|exact Hnone].
  apply Hfirst. intros [|j] t' Hj Ht'; [|lia].
  injection Ht' as <-. reflexivity.
Defined.

(* ===================================================================== *)
(** * Worked examples                                                     *)
(* ===================================================================== *)

Example certainty_half_in_range : certainty_in_range F64_HALF = true.
Proof. reflexivity. Qed.

Example certainty_bounds_in_range :
  certainty_in_range F64_ZERO = true ∧ certainty_in_range F64_NEG_ZERO = true ∧
  certainty_in_range F64_ONE = true.
Proof. repeat split; reflexivity. Qed.

Example certainty_one_and_half_out_of_range :
  certainty_in_range F64_ONE_AND_HALF = false.
Proof. reflexivity. Qed.

(** A NaN, a negative number and the successor of 1.0 are out of range. *)
Example certainty_odd_values_out_of_range :
  certainty_in_range 0x7FF8000000000000 = false ∧
  certainty_in_range 0xBFE0000000000000 = false ∧
  certainty_in_range 0x3FF0000000000001 = false.
Proof. repeat split; reflexivity. Qed.

(** Overlong forms, surrogates and code points past U+10FFFF are not
    UTF-8. *)
Example utf8_rejects_ill_formed :
  utf8_valid [Byte.xc0; Byte.x80] = false ∧
  utf8_valid [Byte.xed; Byte.xa0; Byte.x80] = false ∧
  utf8_valid [Byte.xf4; Byte.x90; Byte.x80; Byte.x80] = false ∧
  utf8_valid [Byte.xe2; Byte.x82] = false.
Proof. repeat split; reflexivity. Qed.

Example utf8_accepts_text :
  utf8_valid [Byte.x61; Byte.xc3; Byte.xa9; Byte.xe2; Byte.x82; Byte.xac;
              Byte.xf0; Byte.x9d; Byte.x84; Byte.x9e] = true.
Proof. reflexivity. Qed.

(** The header of a one-tile medical batch, and the first text field. *)
Example encode_one_tile_prefix :
  ∃ bs, encode sample_format [sample_tile] Byte.x01 = Ok bs ∧
        take 16 bs = [Byte.x49; Byte.x41; Byte.x54; Byte.x48; Byte.x01; Byte.x01;
                      Byte.x01; Byte.x00; Byte.x00; Byte.x00;
                      Byte.x02; Byte.x00; Byte.x00; Byte.x00; Byte.x6b; Byte.x31].
Proof. eexists. split; reflexivity. Qed.

(** Ten bytes short, or one byte long, and the stream is refused. *)
Example decode_truncated_or_trailing :
  ∃ bs, encode sample_format [sample_tile; sample_tile; sample_tile] Byte.x01 = Ok bs ∧
        decode sample_format (take (length bs - 10) bs) = Err TruncatedRecord ∧
        decode sample_format (bs ++ [Byte.x00]) = Err TrailingData.
Proof. eexists. repeat split; vm_compute; reflexivity. Qed.

(** A run of the script on two tiles: what happens, in order. *)
Example main_run_two_tiles :
  let run := run_main (sample_env (FetchOk export_two)) ∅ in
  run.1 = Return tt ∧
  ticks run.2 = 5%nat ∧
  trace run.2 =
    [EvPrint (MsgExporting 0 EXPORT_URL); EvHttpGet EXPORT_URL;
     EvPrint (MsgCounts 1 2 0); EvEncoderNew; EvEncodeBatch normalized_two 1;
     EvOpenWb OUTPUT_FILENAME; EvWrite OUTPUT_FILENAME [];
     EvPrint (MsgExported 4 OUTPUT_FILENAME); EvGetSize OUTPUT_FILENAME;
     EvPrint (MsgFileSize 0)] ∧
  files run.2 !! OUTPUT_FILENAME = Some [].
Proof. repeat split; reflexivity. Qed.

(** A tile that is not an object stops the script before the encoder. *)
Example main_run_bad_tile :
  let run := run_main (sample_env (FetchOk (PDict {[ "knowledge_tiles" := PList [PInt 3] ]}))) ∅ in
  run.1 = Raise AttributeError ∧
  trace run.2 = [EvPrint (MsgExporting 0 EXPORT_URL); EvHttpGet EXPORT_URL;
                 EvPrint (MsgCounts 1 1 0)].
Proof. split; reflexivity. Qed.

(* ===================================================================== *)
(** * More on the record normalizer                                       *)
(* ===================================================================== *)

Section NormalizerBehaviour.

Context (env : Env).
Implicit Types (row : gmap string pyval) (w : World).

Local Abbreviation convert := (convert_d1_to_iath_v1_compatible env).

(** X1: a tile that is not a dict (a number, a string, a list, null) makes
    the normalizer raise [AttributeError] at its first [.get]; the clock
    has not been read and nothing else has happened. *)
Theorem convert_rejects_non_dict v w :
  is_dict v = false → convert v w = (Raise AttributeError, w).
Proof.
  intros Hv.
  destruct v as [| | | | | |row]; [reflexivity ..|].
  discriminate Hv.
Qed.


(** The second pass over a normalized record, field by field. *)
Lemma convert_second_pass row w w' :
  ∃ out ct out2,
    convert (PDict row) w = (Return (PDict out), advance w) ∧
    out !! "content" = Some (PDict ct) ∧
    ct !! "final_response" = Some (dict_get row "content" (PStr EmptyString)) ∧
    convert (PDict out) w' = (Return out2, advance w') ∧
    path_get out2 ["content"; "final_response"] = Some (PDict ct) ∧
    path_get out2 ["metadata"; "knowledge_id"] = Some PNone ∧
    path_get out2 ["metadata"; "topic"] = Some (PStr "Untitled Topic") ∧
    path_get out2 ["metadata"; "created_at"] = Some (PStr (clock_iso env (ticks w'))) ∧
    path_get out2 ["coordinates"; "medical_space"]
      = Some (PList [PFloat F64_ZERO; PFloat F64_ZERO; PFloat F64_ZERO]) ∧
    path_get out2 ["verification"; "status"] = Some (PStr "pending_review").
Proof. do 3 eexists. repeat split; reflexivity. Qed.

(** A value stored in a dict is nested less deeply than the dict. *)
Lemma depth_lookup (m : gmap string pyval) k v :
  m !! k = Some v → (depth v < depth (PDict m))%nat.
Proof.
  intros H. simpl. apply Nat.lt_succ_r.
  revert H. induction m as [|k' v' m Hk' Hfold IH] using map_first_key_ind.
  - rewrite lookup_empty. discriminate.
  - rewrite map_fold_insert_first_key by done.
    destruct (decide (k' = k)) as [->|Hne].
    + rewrite lookup_insert_eq. intros [= ->]. lia.
    + rewrite lookup_insert_ne by done. intros H. specialize (IH H). lia.
Qed.

(** X3: the normalizer is not idempotent.  Its output is nested under
    [metadata], [coordinates], [content] and [verification]; of the flat
    keys it reads only [content] is among them.  So a second pass over a
    normalized record returns a different record, for every row: its
    [final_response] is the whole [content] section of the first record, a
    dict, and the id, topic, date, coordinates and status of the first
    record are lost, back at [None], the default title, the clock reading
    of the second call, zeros and [pending_review]. *)
Theorem convert_is_not_idempotent row w w' :
  ∃ out ct out2,
    convert (PDict row) w = (Return (PDict out), advance w) ∧
    out !! "content" = Some (PDict ct) ∧
    convert (PDict out) w' = (Return out2, advance w') ∧
    out2 ≠ PDict out ∧
    path_get out2 ["content"; "final_response"] = Some (PDict ct) ∧
    path_get out2 ["metadata"; "knowledge_id"] = Some PNone ∧
    path_get out2 ["metadata"; "topic"] = Some (PStr "Untitled Topic") ∧
    path_get out2 ["metadata"; "created_at"] = Some (PStr (clock_iso env (ticks w'))) ∧
    path_get out2 ["coordinates"; "medical_space"]
      = Some (PList [PFloat F64_ZERO; PFloat F64_ZERO; PFloat F64_ZERO]) ∧
    path_get out2 ["verification"; "status"] = Some (PStr "pending_review").
Proof.
  destruct (convert_second_pass row w w')
    as (out & ct & out2 & H1 & Hct & Hfin & H2 & Hresp & Hrest).
  exists out, ct, out2. repeat split; try assumption; try apply Hrest.
  intros ->.
  cbn [path_get] in Hresp. rewrite Hct, Hfin in Hresp.
  injection Hresp as Hc.
  apply depth_lookup in Hfin. rewrite Hc in Hfin. lia.
Qed.


(** X4: a value the row supplies is copied as it is, whatever its type: a
    null, a number or an empty string is kept and the default is not
    used.  This holds for [id], [topic], [created_at], [content] (into
    [final_response]) and [verification_status], and for each coordinate,
    which lands at its own position of [medical_space]. *)
Theorem convert_copies_supplied_values row w key v :
  row !! key = Some v →
  ∃ out,
    (convert (PDict row) w).1 = Return out ∧
    (∀ path, (key, path) ∈ copied_fields → path_get out path = Some v) ∧
    (∀ i, coordinate_keys !! i = Some key →
       ∃ ms, path_get out ["coordinates"; "medical_space"] = Some (PList ms) ∧
             ms !! i = Some v).
Proof.
  intros Hkey.
  assert (Hget : ∀ d, dict_get row key d = v).
  { intros d. unfold dict_get. by rewrite Hkey. }
  eexists. split; [reflexivity|]. split.
  - intros path Hin. unfold copied_fields in Hin.
    rewrite !elem_of_cons, elem_of_nil in Hin.
    destruct Hin as [H|[H|[H|[H|[H|[]]]]]]; injection H as -> ->;
      cbn [path_get]; (etransitivity; [reflexivity|]); f_equal; apply Hget.
  - intros [|[|[|i]]] Hi; try discriminate Hi; injection Hi as <-;
      eexists; (split; [reflexivity|]); cbn; f_equal; apply Hget.
Qed.

(** X5: a field whose key the row lacks takes its default: [None] for the
    id, the default title, the clock reading of this call for
    [created_at], the empty string for [final_response] (and the bare
    marker for [thinking_process]), and 0.0 for each coordinate on its
    own, the other coordinates being unaffected. *)
Theorem convert_fills_missing_fields row w key :
  row !! key = None →
  ∃ out,
    (convert (PDict row) w).1 = Return out ∧
    (∀ path d, (key, path, d) ∈ field_defaults env (ticks w) →
       path_get out path = Some d) ∧
    (∀ i, coordinate_keys !! i = Some key →
       ∃ ms, path_get out ["coordinates"; "medical_space"] = Some (PList ms) ∧
             ms !! i = Some (PFloat F64_ZERO)).
Proof.
  intros Hkey.
  assert (Hget : ∀ d, dict_get row key d = d).
  { intros d. unfold dict_get. by rewrite Hkey. }
  eexists. split; [reflexivity|]. split.
  - intros path d Hin. unfold field_defaults in Hin.
    rewrite !elem_of_cons, elem_of_nil in Hin.
    destruct Hin as [H|[H|[H|[H|[H|[]]]]]]; injection H as -> -> ->;
      cbn [path_get]; (etransitivity; [reflexivity|]); f_equal;
      rewrite ?Hget; reflexivity.
  - intros [|[|[|i]]] Hi; try discriminate Hi; injection Hi as <-;
      eexists; (split; [reflexivity|]); cbn; f_equal; apply Hget.
Qed.

End NormalizerBehaviour.

(** The number 3 is not a tile. *)
Lemma convert_rejects_non_dict_witness :
  convert_d1_to_iath_v1_compatible quiet_env (PInt 3) (init_world ∅)
  = (Raise AttributeError, init_world ∅).
Proof. apply (convert_rejects_non_dict quiet_env (PInt 3) (init_world ∅)). reflexivity. Defined.


(** A null topic stays null. *)
Lemma convert_copies_supplied_values_witness :
  ∃ out,
    (convert_d1_to_iath_v1_compatible quiet_env (PDict row_null_topic) (init_world ∅)).1
      = Return out ∧
    (∀ path, ("topic", path) ∈ copied_fields → path_get out path = Some PNone) ∧
    (∀ i, coordinate_keys !! i = Some "topic" →
       ∃ ms, path_get out ["coordinates"; "medical_space"] = Some (PList ms) ∧
             ms !! i = Some PNone).
Proof.
  apply (convert_copies_supplied_values quiet_env row_null_topic (init_world ∅) "topic" PNone).
  reflexivity.
Defined.

(** A row without [coordinates_y]. *)
Lemma convert_fills_missing_fields_witness :
  ∃ out,
    (convert_d1_to_iath_v1_compatible quiet_env (PDict row_full) (init_world ∅)).1
      = Return out ∧
    (∀ path d, ("coordinates_y", path, d) ∈ field_defaults quiet_env 0 →
       path_get out path = Some d) ∧
    (∀ i, coordinate_keys !! i = Some "coordinates_y" →
       ∃ ms, path_get out ["coordinates"; "medical_space"] = Some (PList ms) ∧
             ms !! i = Some (PFloat F64_ZERO)).
Proof.
  apply (convert_fills_missing_fields quiet_env row_full (init_world ∅) "coordinates_y").
  reflexivity.
Defined.

(* ===================================================================== *)
(** * More on the driver                                                  *)
(* ===================================================================== *)

Section DriverBehaviour.

Context (env : Env).
Implicit Types (fs : gmap string (list byte)) (rows : list (gmap string pyval)).

Local Abbreviation convert := (convert_d1_to_iath_v1_compatible env).

Local Ltac run_script :=
  unfold mbind, M_bind, mret, M_ret, lift, now, print, emit, raise, init_world;
  simpl.

(** The comprehension looks at the clock only. *)
Lemma for_each_convert_value items : ∀ w1 w2,
  ticks w1 = ticks w2 →
  (for_each convert items w1).1 = (for_each convert items w2).1.
Proof.
  induction items as [|x items IH]; intros w1 w2 Ht; [reflexivity|].
  rewrite !for_each_cons.
  destruct x as [| | | | | |row]; try reflexivity.
  destruct (convert_dict_returns env row w1) as [o1 H1].
  destruct (convert_dict_returns env row w2) as [o2 H2].
  assert (Ho : o1 = o2).
  { pose proof (convert_value_clock env row w2 (trace w1) (files w1)) as Hv.
    rewrite <- Ht in Hv.
    replace (mkWorld (ticks w1) (trace w1) (files w1)) with w1 in Hv by by destruct w1.
    rewrite H1, H2 in Hv. simpl in Hv. congruence. }
  subst o2. rewrite H1, H2.
  assert (Ha : ticks (advance w1) = ticks (advance w2)) by (simpl; congruence).
  specialize (IH _ _ Ha).
  destruct (for_each convert items (advance w1)) as [[ys1|e1] w1'];
    destruct (for_each convert items (advance w2)) as [[ys2|e2] w2'];
    simpl in *; congruence.
Qed.

(** A tile that is not a dict stops the comprehension with
    [AttributeError]; trace and files are as they were. *)
Lemma for_each_convert_bad items : ∀ w i v,
  items !! i = Some v → is_dict v = false →
  ∃ w', for_each convert items w = (Raise AttributeError, w') ∧
        trace w' = trace w ∧ files w' = files w.
Proof.
  induction items as [|x items IH]; intros w i v Hi Hv; [discriminate Hi|].
  rewrite for_each_cons.
  destruct (is_dict x) eqn:Hx.
  - destruct x as [| | | | | |row]; try discriminate Hx.
    destruct i as [|i]; simpl in Hi; [injection Hi as <-; discriminate Hv|].
    destruct (convert_dict_returns env row w) as [o Ho]. rewrite Ho.
    destruct (IH (advance w) i v Hi Hv) as (w' & -> & Htr & Hfs).
    exists w'. by repeat split.
  - rewrite (convert_non_dict_raises env x w) by (intros row ->; discriminate Hx).
    exists w. by repeat split.
Qed.

(** Over dicts the comprehension returns what [handed_over] names. *)
Lemma for_each_convert_handed_over rows tr fs :
  for_each convert (PDict <$> rows) (mkWorld 2 tr fs)
  = (Return (handed_over env rows), mkWorld (2 + length rows) tr fs).
Proof.
  destruct (for_each_convert_dicts env rows (mkWorld 2 tr fs)) as [outs Houts].
  rewrite Houts. simpl. do 2 f_equal. unfold handed_over.
  rewrite (for_each_convert_value (PDict <$> rows) (mkWorld 2 [] ∅) (mkWorld 2 tr fs))
    by reflexivity.
  by rewrite Houts.
Qed.

(** The rest of the run once the tiles are normalized: the encoder
    refuses, or the disk does, or the bytes are written and measured. *)
Lemma main_run_with_tiles fs data rows n :
  fetch env = FetchOk (PDict data) →
  data !! "knowledge_tiles" = Some (PList (PDict <$> rows)) →
  rows ≠ [] →
  py_len (dict_get data "users" (PList [])) = Return n →
  run_main env fs =
    match encode_batch env (handed_over env rows) 1 with
    | Raise e =>
        (Raise e,
         mkWorld (2 + length rows)
                 (counted (length rows) n ++ [EvEncoderNew; EvEncodeBatch (handed_over env rows) 1])
                 fs)
    | Return data =>
        if disk_writable env then
          (Return tt,
           mkWorld (3 + length rows)
                   (counted (length rows) n ++ closing (handed_over env rows) data (2 + length rows))
                   (<[OUTPUT_FILENAME := data]> fs))
        else
          (Raise OSError,
           mkWorld (2 + length rows)
                   (counted (length rows) n ++ [EvEncoderNew; EvEncodeBatch (handed_over env rows) 1])
                   fs)
    end.
Proof.
  intros Hf Hkt Hne Hlen.
  assert (Hget : dict_get data "knowledge_tiles" (PList []) = PList (PDict <$> rows)).
  { unfold dict_get. by rewrite Hkt. }
  assert (Hnz : Nat.eqb (length (PDict <$> rows)) 0 = false).
  { destruct rows; [done|reflexivity]. }
  unfold run_main, main. rewrite Hf. unfold py_get. rewrite Hget.
  remember (PDict <$> rows) as items eqn:Hitems.
  run_script. rewrite Hlen. simpl. rewrite Hnz. simpl.
  subst items. rewrite for_each_convert_handed_over, length_fmap. simpl.
  destruct (encode_batch env (handed_over env rows) 1) as [bytes|e]; simpl;
    [|reflexivity].
  unfold write_file. destruct (disk_writable env); [|reflexivity].
  run_script. unfold getsize, stat. run_script.
  rewrite lookup_insert_eq. reflexivity.
Qed.

(** Every run of [main] is of one of three kinds: it ends before the
    encoder, having only printed after the request; or it ends with an
    exception right after the encoder was called, the files untouched; or
    it goes through and the output file holds what the encoder returned. *)
Lemma main_run_cases fs :
  (∃ o t tr,
     run_main env fs = (o, mkWorld t (opening ++ tr) fs) ∧
     Forall (λ e, is_print e = true) tr)
  ∨ (∃ e t tr outs,
       run_main env fs
       = (Raise e, mkWorld t (opening ++ tr ++ [EvEncoderNew; EvEncodeBatch outs 1]) fs) ∧
       Forall (λ e, is_print e = true) tr ∧
       (encode_batch env outs 1 = Raise e ∨
        (∃ data, encode_batch env outs 1 = Return data) ∧
        disk_writable env = false ∧ e = OSError))
  ∨ (∃ t tr outs data,
       run_main env fs
       = (Return tt,
          mkWorld (S t) (opening ++ tr ++ closing outs data t)
                  (<[OUTPUT_FILENAME := data]> fs)) ∧
       Forall (λ e, is_print e = true) tr ∧
       encode_batch env outs 1 = Return data).
Proof.
  unfold run_main, main.
  destruct (fetch env) as [| |exported] eqn:Hf.
  - left. run_script. eexists _, _, _. split; [reflexivity | repeat constructor].
  - left. run_script. eexists _, _, _. split; [reflexivity | repeat constructor].
  - destruct exported as [| | | | | |data];
      try (left; run_script; eexists _, _, _; split; [reflexivity | repeat constructor]).
    unfold py_get.
    set (kt := dict_get data "knowledge_tiles" (PList [])).
    set (users := dict_get data "users" (PList [])).
    run_script.
    destruct (py_len kt) as [n|e] eqn:Hn;
      [|left; simpl; eexists _, _, _; split; [reflexivity | repeat constructor]].
    destruct (py_len users) as [m|e] eqn:Hm;
      [|left; simpl; eexists _, _, _; split; [reflexivity | repeat constructor]].
    simpl.
    destruct (py_truthy kt) eqn:Ht; simpl;
      [|left; eexists _, _, _; split; [reflexivity | repeat constructor]].
    destruct (py_iter kt) as [items|e] eqn:Hi;
      [|left; simpl; eexists _, _, _; split; [reflexivity | repeat constructor]].
    destruct (for_each convert items _) as [[outs|e] w3] eqn:Hfor.
    + destruct (for_each_convert_returns env _ _ _ _ Hfor) as (-> & _ & _).
      simpl.
      destruct (encode_batch env outs 1) as [bytes|e] eqn:Henc; simpl.
      * unfold write_file. destruct (disk_writable env) eqn:Hdisk.
        -- right. right. run_script. unfold getsize, stat. run_script.
           rewrite lookup_insert_eq.
           eexists _, [EvPrint (MsgCounts 1 n m)], outs, bytes.
           split; [reflexivity|]. split; [repeat constructor | exact Henc].
        -- right. left. run_script.
           eexists OSError, _, [EvPrint (MsgCounts 1 n m)], outs.
           split; [reflexivity|]. split; [repeat constructor|].
           right. rewrite Henc. eauto.
      * right. left.
        eexists e, _, [EvPrint (MsgCounts 1 n m)], outs.
        split; [reflexivity|]. split; [repeat constructor|].
        left. exact Henc.
    + destruct (for_each_convert_raises env _ _ _ _ Hfor) as [Htr Hfs].
      left. simpl. destruct w3 as [t3 tr3 fs3]. simpl in *. subst.
      eexists _, _, _. split; [reflexivity | repeat constructor].
Qed.

End DriverBehaviour.

Section TileOrder.

Context (env : Env).
Implicit Types (fs : gmap string (list byte)).

Local Abbreviation convert := (convert_d1_to_iath_v1_compatible env).



End TileOrder.


Section DriverOutcomes.

Context (env : Env).
Implicit Types (fs : gmap string (list byte)) (rows : list (gmap string pyval)).

Local Abbreviation convert := (convert_d1_to_iath_v1_compatible env).

Local Ltac run_script :=
  unfold mbind, M_bind, mret, M_ret, lift, now, print, emit, raise, init_world;
  simpl.


(** X7: when the response is JSON but not an object (an array, a string,
    a number, null), [main] raises [AttributeError] at its first [.get],
    right after the request: nothing is counted, encoded or written. *)
Theorem main_rejects_non_object_export fs exported :
  fetch env = FetchOk exported →
  is_dict exported = false →
  run_main env fs = (Raise AttributeError, mkWorld 1 opening fs).
Proof.
  unfold run_main, main. intros -> Hv.
  destruct exported; try discriminate Hv; reflexivity.
Qed.

(** X8: the count line needs [len] of both fields.  When
    [knowledge_tiles] or [users] is a value without a length (null, a
    number, a boolean), [main] raises [TypeError] before the count line is
    printed; in particular a null [users] stops the export although the
    users are used for nothing but that line. *)
Theorem main_unsized_field_raises fs data :
  fetch env = FetchOk (PDict data) →
  py_len (dict_get data "knowledge_tiles" (PList [])) = Raise TypeError ∨
  py_len (dict_get data "users" (PList [])) = Raise TypeError →
  run_main env fs = (Raise TypeError, mkWorld 2 opening fs).
Proof.
  unfold run_main, main. intros -> Hlen. unfold py_get. run_script.
  destruct (py_len (dict_get data "knowledge_tiles" (PList []))) as [n|e] eqn:Hn.
  - destruct Hlen as [Hlen | ->]; [discriminate Hlen | reflexivity].
  - assert (e = TypeError) as ->; [|reflexivity].
    destruct (dict_get data "knowledge_tiles" (PList [])); simpl in Hn; congruence.
Qed.

(** X9: normalization is all or nothing.  If any element of the
    [knowledge_tiles] list is not an object, [main] raises
    [AttributeError] after the count line: the encoder is not constructed
    and no file is touched, however many tiles before it were fine. *)
Theorem main_bad_tile_aborts fs data ts n i v :
  fetch env = FetchOk (PDict data) →
  data !! "knowledge_tiles" = Some (PList ts) →
  py_len (dict_get data "users" (PList [])) = Return n →
  ts !! i = Some v →
  is_dict v = false →
  ∃ t, run_main env fs = (Raise AttributeError, mkWorld t (counted (length ts) n) fs).
Proof.
  intros Hf Hkt Hlen Hi Hv.
  assert (Hget : dict_get data "knowledge_tiles" (PList []) = PList ts).
  { unfold dict_get. by rewrite Hkt. }
  assert (Hnz : Nat.eqb (length ts) 0 = false).
  { destruct ts; [discriminate Hi | reflexivity]. }
  unfold run_main, main. rewrite Hf. unfold py_get. rewrite Hget.
  run_script. rewrite Hlen. simpl. rewrite Hnz. simpl.
  match goal with
  | |- context [for_each convert ts ?w] =>
      destruct (for_each_convert_bad env ts w i v Hi Hv) as ([t tr fs'] & -> & Htr & Hfs)
  end.
  simpl in *. subst. by exists t.
Qed.

(** X10: an export that goes through.  For a non-empty list of object
    tiles, when the encoder returns [bytes] for the normalized list and
    the file can be opened, [main] returns normally; the output file (new
    or replaced) holds exactly [bytes], the size it logs is their length,
    and the clock has been read once per tile and three times more. *)
Theorem main_writes_encoder_output fs data rows n bytes :
  fetch env = FetchOk (PDict data) →
  data !! "knowledge_tiles" = Some (PList (PDict <$> rows)) →
  rows ≠ [] →
  py_len (dict_get data "users" (PList [])) = Return n →
  encode_batch env (handed_over env rows) 1 = Return bytes →
  disk_writable env = true →
  run_main env fs =
    (Return tt,
     mkWorld (3 + length rows)
             (counted (length rows) n ++ closing (handed_over env rows) bytes (2 + length rows))
             (<[OUTPUT_FILENAME := bytes]> fs)).
Proof.
  intros Hf Hkt Hne Hlen Henc Hdisk.
  rewrite (main_run_with_tiles env fs data rows n Hf Hkt Hne Hlen).
  by rewrite Henc, Hdisk.
Qed.

(** X11: an exception of the encoder is not caught.  [main] ends with
    that exception right after the call; no file is opened, and an output
    file of an earlier run is left as it was. *)
Theorem main_encoder_failure_propagates fs data rows n e :
  fetch env = FetchOk (PDict data) →
  data !! "knowledge_tiles" = Some (PList (PDict <$> rows)) →
  rows ≠ [] →
  py_len (dict_get data "users" (PList [])) = Return n →
  encode_batch env (handed_over env rows) 1 = Raise e →
  run_main env fs =
    (Raise e,
     mkWorld (2 + length rows)
             (counted (length rows) n ++ [EvEncoderNew; EvEncodeBatch (handed_over env rows) 1])
             fs).
Proof.
  intros Hf Hkt Hne Hlen Henc.
  rewrite (main_run_with_tiles env fs data rows n Hf Hkt Hne Hlen).
  by rewrite Henc.
Qed.


End DriverOutcomes.

Section DriverFrame.

Context (env : Env).
Implicit Types (fs : gmap string (list byte)).

Local Abbreviation convert := (convert_d1_to_iath_v1_compatible env).

Local Ltac run_script :=
  unfold mbind, M_bind, mret, M_ret, lift, now, print, emit, raise, init_world;
  simpl.

Local Ltac not_listed H :=
  unfold opening, closing in H;
  rewrite ?elem_of_app, ?elem_of_cons, ?elem_of_nil in H.

(** A log line is no other kind of action. *)
Lemma prints_only tr e :
  Forall (λ e, is_print e = true) tr → e ∈ tr → is_print e = true.
Proof. intros Htr He. by apply (proj1 (Forall_forall _ _) Htr e). Qed.

(** X13: [main] writes one file only.  Whatever the export source, the
    encoder and the disk do, every file other than [exported_db.iath] is
    after the run what it was before. *)
Theorem main_touches_output_file_only fs name :
  name ≠ OUTPUT_FILENAME →
  files (run_main env fs).2 !! name = fs !! name.
Proof.
  intros Hname.
  destruct (main_run_cases env fs)
    as [(o & t & tr & -> & _) | [(e & t & tr & outs & -> & _) | (t & tr & outs & data & -> & _)]];
    simpl; try reflexivity.
  by apply lookup_insert_ne.
Qed.

(** X14: one request and no retry.  Every run starts with the log line
    and one GET of the export URL, and nothing that follows (on success,
    on failure, on an exception) is another request. *)
Theorem main_requests_once fs :
  ∃ tail,
    trace (run_main env fs).2 = opening ++ tail ∧
    ∀ url, EvHttpGet url ∉ tail.
Proof.
  destruct (main_run_cases env fs)
    as [(o & t & tr & -> & Htr) | [(e & t & tr & outs & -> & Htr & _)
                                  | (t & tr & outs & data & -> & Htr & _)]];
    simpl; eexists; (split; [reflexivity|]); intros url Hin.
  - by apply (prints_only _ _ Htr) in Hin.
  - apply elem_of_app in Hin as [Hin|Hin];
      [by apply (prints_only _ _ Htr) in Hin|].
    not_listed Hin. intuition discriminate.
  - apply elem_of_app in Hin as [Hin|Hin];
      [by apply (prints_only _ _ Htr) in Hin|].
    not_listed Hin. intuition discriminate.
Qed.

(** X15: what is written is what the encoder returned.  Whenever [main]
    writes bytes to a file, the file is [exported_db.iath], the bytes are
    the result of the one [encode_batch] call of the run (with domain code
    1), the run ends normally and the file holds these bytes. *)
Theorem main_writes_what_encoder_returned fs name data :
  EvWrite name data ∈ trace (run_main env fs).2 →
  name = OUTPUT_FILENAME ∧
  (run_main env fs).1 = Return tt ∧
  files (run_main env fs).2 !! OUTPUT_FILENAME = Some data ∧
  ∃ outs, EvEncodeBatch outs 1 ∈ trace (run_main env fs).2 ∧
          encode_batch env outs 1 = Return data.
Proof.
  destruct (main_run_cases env fs)
    as [(o & t & tr & -> & Htr) | [(e & t & tr & outs & -> & Htr & _)
                                  | (t & tr & outs & bytes & -> & Htr & Henc)]];
    simpl; intros Hin;
    (apply elem_of_cons in Hin as [Hin|Hin]; [discriminate Hin|]);
    (apply elem_of_cons in Hin as [Hin|Hin]; [discriminate Hin|]).
  - apply (prints_only _ _ Htr) in Hin. discriminate Hin.
  - apply elem_of_app in Hin as [Hin|Hin];
      [apply (prints_only _ _ Htr) in Hin; discriminate Hin|].
    not_listed Hin. intuition discriminate.
  - apply elem_of_app in Hin as [Hin|Hin];
      [apply (prints_only _ _ Htr) in Hin; discriminate Hin|].
    not_listed Hin.
    assert (Heq : name = OUTPUT_FILENAME ∧ data = bytes).
    { repeat destruct Hin as [Hin|Hin]; try discriminate Hin; try done.
      by injection Hin as -> ->. }
    destruct Heq as [-> ->].
    split; [reflexivity|]. split; [reflexivity|].
    split; [apply lookup_insert_eq|].
    exists outs. split; [|exact Henc].
    do 2 apply list_elem_of_further. apply elem_of_app. right.
    unfold closing. apply list_elem_of_further, list_elem_of_here.
Qed.

(** X16: a [knowledge_tiles] that is an object or a string, not an
    array.  An empty one counts as no tiles and [main] returns early; a
    non-empty one is iterated by key or by character, which are strings,
    so the first normalization raises [AttributeError].  Either way only
    log lines follow the request and no file is touched. *)
Theorem main_tiles_not_a_list fs data kt n :
  fetch env = FetchOk (PDict data) →
  data !! "knowledge_tiles" = Some kt →
  (∃ s, kt = PStr s) ∨ (∃ m, kt = PDict m) →
  py_len (dict_get data "users" (PList [])) = Return n →
  ∃ t tr,
    run_main env fs
    = (if py_truthy kt then Raise AttributeError else Return tt,
       mkWorld t (opening ++ tr) fs) ∧
    Forall (λ e, is_print e = true) tr.
Proof.
  intros Hf Hkt Hshape Hlen.
  assert (Hget : dict_get data "knowledge_tiles" (PList []) = kt).
  { unfold dict_get. by rewrite Hkt. }
  assert (Hsized : ∃ k items, py_len kt = Return k ∧ py_iter kt = Return items).
  { destruct Hshape as [[s ->] | [m ->]]; simpl; eauto. }
  destruct Hsized as (k & items & Hk & Hitems).
  unfold run_main, main. rewrite Hf. unfold py_get. rewrite Hget.
  run_script. rewrite Hk. simpl. rewrite Hlen. simpl.
  destruct (py_truthy kt) eqn:Ht; simpl.
  - rewrite Hitems. simpl.
    destruct (items_of_truthy kt items Ht Hitems) as [(ts & -> & _) | (s & rest & ->)].
    + destruct Hshape as [[s Hs] | [m Hm]]; discriminate.
    + rewrite for_each_convert_str. simpl.
      eexists _, _. split; [reflexivity | repeat constructor].
  - eexists _, _. split; [reflexivity | repeat constructor].
Qed.

End DriverFrame.

(** ** The further properties at sample inputs *)


(** A response that is a JSON array. *)
Lemma main_rejects_non_object_export_witness :
  run_main (sample_env (FetchOk (PList []))) two_files
  = (Raise AttributeError, mkWorld 1 opening two_files).
Proof.
  apply (main_rejects_non_object_export (sample_env (FetchOk (PList []))) two_files (PList []));
    reflexivity.
Defined.

(** One good tile, and users that are null. *)
Lemma main_unsized_field_raises_witness :
  run_main (sample_env (FetchOk (PDict export_null_users))) two_files
  = (Raise TypeError, mkWorld 2 opening two_files).
Proof.
  apply (main_unsized_field_raises (sample_env (FetchOk (PDict export_null_users)))
           two_files export_null_users).
  - reflexivity.
  - right. reflexivity.
Defined.

(** A good tile followed by the number 3. *)
Lemma main_bad_tile_aborts_witness :
  ∃ t, run_main (sample_env (FetchOk (PDict export_bad_tile))) two_files
       = (Raise AttributeError, mkWorld t (counted 2 0) two_files).
Proof.
  apply (main_bad_tile_aborts (sample_env (FetchOk (PDict export_bad_tile))) two_files
           export_bad_tile [PDict row_full; PInt 3] 0 1 (PInt 3));
    reflexivity.
Defined.

(** Two tiles, three bytes from the encoder, an output file of an earlier
    run that is replaced. *)
Lemma main_writes_encoder_output_witness :
  run_main (three_byte_env (FetchOk export_two)) two_files =
    (Return tt,
     mkWorld 5
       (counted 2 0 ++
        closing (handed_over (three_byte_env (FetchOk export_two)) [row_full; ∅])
                [Byte.x49; Byte.x41; Byte.x54] 4)
       (<[OUTPUT_FILENAME := [Byte.x49; Byte.x41; Byte.x54]]> two_files)).
Proof.
  apply (main_writes_encoder_output (three_byte_env (FetchOk export_two)) two_files
           export_two_fields [row_full; ∅] 0 [Byte.x49; Byte.x41; Byte.x54]);
    try reflexivity.
  discriminate.
Defined.

(** Two tiles and an encoder that refuses them. *)
Lemma main_encoder_failure_propagates_witness :
  run_main (failing_encoder_env (FetchOk export_two)) two_files =
    (Raise (EncoderError "invalid tile"),
     mkWorld 4
       (counted 2 0 ++
        [EvEncoderNew;
         EvEncodeBatch (handed_over (failing_encoder_env (FetchOk export_two)) [row_full; ∅]) 1])
       two_files).
Proof.
  apply (main_encoder_failure_propagates (failing_encoder_env (FetchOk export_two)) two_files
           export_two_fields [row_full; ∅] 0 (EncoderError "invalid tile"));
    try reflexivity.
  discriminate.
Defined.


(** The notes next to the output file survive an export. *)
Lemma main_touches_output_file_only_witness :
  files (run_main (three_byte_env (FetchOk export_two)) two_files).2 !! "notes.txt"
  = two_files !! "notes.txt".
Proof.
  apply (main_touches_output_file_only (three_byte_env (FetchOk export_two)) two_files
           "notes.txt").
  discriminate.
Defined.

(** The three bytes of the encoder are written. *)
Lemma main_writes_what_encoder_returned_witness :
  OUTPUT_FILENAME = OUTPUT_FILENAME ∧
  (run_main (three_byte_env (FetchOk export_two)) two_files).1 = Return tt ∧
  files (run_main (three_byte_env (FetchOk export_two)) two_files).2 !! OUTPUT_FILENAME
    = Some [Byte.x49; Byte.x41; Byte.x54] ∧
  ∃ outs,
    EvEncodeBatch outs 1 ∈ trace (run_main (three_byte_env (FetchOk export_two)) two_files).2 ∧
    encode_batch (three_byte_env (FetchOk export_two)) outs 1
      = Return [Byte.x49; Byte.x41; Byte.x54].
Proof.
  apply (main_writes_what_encoder_returned (three_byte_env (FetchOk export_two)) two_files
           OUTPUT_FILENAME [Byte.x49; Byte.x41; Byte.x54]).
  apply (list_elem_of_lookup_2 _ 6). reflexivity.
Defined.

(** Tiles sent as an object keyed by id: the key is not a tile. *)
Lemma main_tiles_not_a_list_witness :
  ∃ t tr,
    run_main (sample_env (FetchOk (PDict export_keyed_tiles))) two_files
    = (Raise AttributeError, mkWorld t (opening ++ tr) two_files) ∧
    Forall (λ e, is_print e = true) tr.
Proof.
  destruct (main_tiles_not_a_list (sample_env (FetchOk (PDict export_keyed_tiles)))
              two_files export_keyed_tiles (PDict {[ "k1" := PDict row_full ]}) 0)
    as (t & tr & Hrun & Hpr).
  - reflexivity.
  - reflexivity.
  - right. eexists. reflexivity.
  - reflexivity.
  - exists t, tr. split; [exact Hrun | exact Hpr].
Defined.
